(** * AutoRBI: user CRUD, analytics service, list-view pagination,
      view state and Excel upload gating

    A shallow embedding of the pure and state-passing parts of the AutoRBI
    sources, with the properties the specification states about them.

    - [user_crud.py]: [normalize_user_status] and the user CRUD operations,
      over a database modelled as the list of rows seen through the session.
    - [admin_analytics_service.py]: the four service functions and
      [_calculate_date_range], with Python exceptions as an error monad.
    - [user_management.py]: the pagination state of [UserManagementView].
    - [state_manager.py]: the file selection of [ViewState].
    - [excel_validator.py]: [ExcelValidator].

    Python [int] is [Z], [str] is [string] (one character per code point
    below U+0100), [dict] is [gmap], [set] is [gset], [list] is [list]. *)

From Stdlib Require Import ZArith QArith Ascii String.
From stdpp Require Import gmap strings list fin_maps pretty.

Open Scope string_scope.
Open Scope list_scope.
Open Scope Z_scope.

(** ** Python values and strings *)

Module Py.

(** The scalar values whose [str()] is modelled. *)
Inductive PyValue :=
  | VNone
  | VBool (b : bool)
  | VInt (n : Z)
  | VStr (s : string).

#[global] Instance PyValue_eq_dec : EqDecision PyValue.
Proof. solve_decision. Defined.

(** [str(value)] *)
Definition str (value : PyValue) : string :=
  match value with
  | VNone => "None"
  | VBool true => "True"
  | VBool false => "False"
  | VInt n => pretty n
  | VStr s => s
  end.

(** Truth value of an object in a condition ([if value:]). *)
Definition truthy (value : PyValue) : bool :=
  match value with
  | VNone => false
  | VBool b => b
  | VInt n => negb (n =? 0)
  | VStr s => negb (String.eqb s "")
  end.

Definition code (c : ascii) : N := N_of_ascii c.

(** [c.isspace()] for a code point below U+0100: TAB..CR, FS..US, space,
    NEL and NBSP. *)
Definition isspace (c : ascii) : bool :=
  let n := code c in
  ((9 <=? n) && (n <=? 13) || (28 <=? n) && (n <=? 32)
   || (n =? 133) || (n =? 160))%N.

(** [c.lower()] for a code point below U+0100: A..Z and the Latin-1
    capitals U+00C0..U+00DE (the multiplication sign U+00D7 apart). *)
Definition lower_char (c : ascii) : ascii :=
  let n := code c in
  if ((65 <=? n) && (n <=? 90)
      || (192 <=? n) && (n <=? 222) && negb (n =? 215))%N
  then ascii_of_N (n + 32)
  else c.

Fixpoint lower (s : string) : string :=
  match s with
  | EmptyString => EmptyString
  | String c s' => String (lower_char c) (lower s')
  end.

Fixpoint lstrip (s : string) : string :=
  match s with
  | EmptyString => EmptyString
  | String c s' => if isspace c then lstrip s' else s
  end.

Fixpoint rstrip (s : string) : string :=
  match s with
  | EmptyString => EmptyString
  | String c s' =>
      match rstrip s' with
      | EmptyString => if isspace c then EmptyString else String c EmptyString
      | r => String c r
      end
  end.

(** [s.strip()] *)
Definition strip (s : string) : string := rstrip (lstrip s).

(** [s.isspace() or s == ""]: nothing but white space. *)
Fixpoint blank (s : string) : bool :=
  match s with
  | EmptyString => true
  | String c s' => isspace c && blank s'
  end.

(** Exceptions: the classes the sources raise or catch by name, and any
    other subclass of [Exception]. *)
Inductive exn :=
  | ValueError (msg : string)
  | TypeError (msg : string)
  | OverflowError (msg : string)
  | UnauthorizedAccessError (msg : string)
  | OtherError (cls msg : string).

(** A call returns a value or raises. *)
Inductive result (A : Type) :=
  | Return (a : A)
  | Raise (e : exn).
Arguments Return {A} a.
Arguments Raise {A} e.

Definition bind {A B} (r : result A) (k : A -> result B) : result B :=
  match r with
  | Return a => k a
  | Raise e => Raise e
  end.

(** [try: body  except Exception as e: handler(e)] *)
Definition try_except {A} (body : result A) (handler : exn -> A) : A :=
  match body with
  | Return a => a
  | Raise e => handler e
  end.

(** [str(e)] of an exception built from one message argument. *)
Definition exn_str (e : exn) : string :=
  match e with
  | ValueError m | TypeError m | OverflowError m
  | UnauthorizedAccessError m | OtherError _ m => m
  end.

End Py.

Import Py.

Notation "'call' x <- r ; k" := (bind r (fun x => k))
  (at level 10, x name, r at level 100, k at level 200).

(** ** user_crud.py *)

Module UserCrud.

Definition active_words : list string :=
  ["active"; "a"; "enabled"; "yes"; "true"; "1"].

Definition inactive_words : list string :=
  ["inactive"; "i"; "disabled"; "no"; "false"; "0"].

(** [normalize_user_status(value)]: Python's [None] result is [None],
    a returned string is [Some]. *)
Definition normalize_user_status (value : PyValue) : option string :=
  match value with
  | VNone => None
  | _ =>
      let v := lower (strip (str value)) in
      if bool_decide (v ∈ active_words) then Some "Active"
      else if bool_decide (v ∈ inactive_words) then Some "Inactive"
      else None
  end.

(** A row of the [users] table, with the columns the sources read or
    write.  The text columns hold whatever value was assigned to the
    attribute; [create_user] leaves [email] unset. *)
Record User := mkUser {
  user_id : Z;
  username : PyValue;
  full_name : PyValue;
  email : PyValue;
  password : string;
  role : PyValue;
  status : string
}.

Definition set_full_name (v : PyValue) (u : User) : User :=
  mkUser (user_id u) (username u) v (email u) (password u) (role u) (status u).
Definition set_username (v : PyValue) (u : User) : User :=
  mkUser (user_id u) v (full_name u) (email u) (password u) (role u) (status u).
Definition set_role (v : PyValue) (u : User) : User :=
  mkUser (user_id u) (username u) (full_name u) (email u) (password u) v (status u).
Definition set_status (v : string) (u : User) : User :=
  mkUser (user_id u) (username u) (full_name u) (email u) (password u) (role u) v.
Definition set_password (v : string) (u : User) : User :=
  mkUser (user_id u) (username u) (full_name u) (email u) v (role u) (status u).

(** The database is the list of rows the session sees, in table order.
    An ORM object returned by a query is the row at its index: assigning
    to its attributes updates that row. *)
Abbreviation Session := (list User).

Section Crud.

(** The password library: [pwd_context.hash] draws a salt and returns the
    encoded hash, or raises. *)
Context {Salt : Type}.
Variable pwd_context_hash : Salt -> PyValue -> result string.
Variable pwd_context_verify : PyValue -> string -> result bool.

(** The primary key the database gives to an inserted row. *)
Variable next_user_id : Session -> Z.

Definition hash_password (salt : Salt) (password : PyValue) : result string :=
  pwd_context_hash salt password.

Definition verify_password (plain_pw : PyValue) (hashed_pw : string) : result bool :=
  pwd_context_verify plain_pw hashed_pw.

(** [db.query(User).filter(User.user_id == user_id).first()], with the
    index of the row found. *)
Definition find_user (db : Session) (id : Z) : option (nat * User) :=
  list_find (λ u, user_id u = id) db.

Definition get_user_by_id (db : Session) (id : Z) : option User :=
  snd <$> find_user db id.

Definition get_all_users (db : Session) : list User := db.

Definition get_active_users (db : Session) : list User :=
  filter (λ u, status u = "Active") db.

(** [create_user]: the outcome and the database afterwards. *)
Definition create_user (salt : Salt) (db : Session)
    (username full_name password role : PyValue) : result User * Session :=
  match hash_password salt password with
  | Raise e => (Raise e, db)
  | Return hashed_pw =>
      let user :=
        mkUser (next_user_id db) username full_name VNone hashed_pw role "Active" in
      (Return user, db ++ [user])
  end.

Definition register_engineer (salt : Salt) (db : Session)
    (username full_name password : PyValue) : result User * Session :=
  create_user salt db username full_name password (VStr "Engineer").

(** [if key in updates: user.attr = updates[key]] *)
Definition assign_if_present (updates : gmap string PyValue) (key : string)
    (set : PyValue -> User -> User) (user : User) : User :=
  match updates !! key with
  | Some v => set v user
  | None => user
  end.

(** [admin_update_user]: the attribute assignments made before an
    exception stay on the row object. *)
Definition admin_update_user (salt : Salt) (db : Session) (id : Z)
    (updates : gmap string PyValue) : result (option User) * Session :=
  match find_user db id with
  | None => (Return None, db)
  | Some (i, user) =>
      let user := assign_if_present updates "full_name" set_full_name user in
      let user := assign_if_present updates "username" set_username user in
      let user := assign_if_present updates "role" set_role user in
      let status_step :=
        match updates !! "status" with
        | Some v =>
            match normalize_user_status v with
            | None => Raise (ValueError ("Invalid user status: " +:+ str v))
            | Some normalized => Return (set_status normalized user)
            end
        | None => Return user
        end in
      match status_step with
      | Raise e => (Raise e, <[i:=user]> db)
      | Return user =>
          let password_step :=
            match updates !! "password" with
            | Some v => call hashed <- hash_password salt v; Return (set_password hashed user)
            | None => Return user
            end in
          match password_step with
          | Raise e => (Raise e, <[i:=user]> db)
          | Return user => (Return (Some user), <[i:=user]> db)
          end
      end
  end.

(** [engineer_update_self(db, user_id, full_name=None, password=None)] *)
Definition engineer_update_self (salt : Salt) (db : Session) (id : Z)
    (new_full_name new_password : PyValue) : result (option User) * Session :=
  match find_user db id with
  | None => (Return None, db)
  | Some (i, user) =>
      let user := if truthy new_full_name then set_full_name new_full_name user else user in
      let password_step :=
        if truthy new_password
        then call hashed <- hash_password salt new_password; Return (set_password hashed user)
        else Return user in
      match password_step with
      | Raise e => (Raise e, <[i:=user]> db)
      | Return user => (Return (Some user), <[i:=user]> db)
      end
  end.

(** [deactivate_user]: nothing in it raises. *)
Definition deactivate_user (db : Session) (id : Z) : option User * Session :=
  match find_user db id with
  | None => (None, db)
  | Some (i, user) =>
      let user := set_status "Inactive" user in
      (Some user, <[i:=user]> db)
  end.

(** [login_user]: the user or [None], with the message. *)
Definition login_user (db : Session) (name password : PyValue)
    : result (option User * string) :=
  match list_find (λ u, username u = name) db with
  | None => Return (None, "User not found")
  | Some (_, user) =>
      if negb (String.eqb (status user) "Active") then Return (None, "Account inactive")
      else
        call ok <- verify_password password (UserCrud.password user);
        if negb ok then Return (None, "Invalid password")
        else Return (Some user, "Login successful")
  end.

(** [db.query(User).filter(User.username == username).first()] *)
Definition get_user_by_username (db : Session) (name : PyValue) : option User :=
  snd <$> list_find (λ u, username u = name) db.

(** The calls that write to the [users] table. *)
Inductive UserOp :=
  | OpCreateUser (salt : Salt) (username full_name password role : PyValue)
  | OpRegisterEngineer (salt : Salt) (username full_name password : PyValue)
  | OpAdminUpdateUser (salt : Salt) (id : Z) (updates : gmap string PyValue)
  | OpEngineerUpdateSelf (salt : Salt) (id : Z) (new_full_name new_password : PyValue)
  | OpDeactivateUser (id : Z).

(** The database after a call, whether it returned or raised. *)
Definition run_op (op : UserOp) (db : Session) : Session :=
  match op with
  | OpCreateUser salt u f p r => snd (create_user salt db u f p r)
  | OpRegisterEngineer salt u f p => snd (register_engineer salt db u f p)
  | OpAdminUpdateUser salt id updates => snd (admin_update_user salt db id updates)
  | OpEngineerUpdateSelf salt id f p => snd (engineer_update_self salt db id f p)
  | OpDeactivateUser id => snd (deactivate_user db id)
  end.

End Crud.

(** Every stored status is one of the two canonical strings. *)
Definition valid_status (s : string) : Prop := s = "Active" ∨ s = "Inactive".

Definition status_invariant (db : Session) : Prop :=
  ∀ u, u ∈ db → valid_status (status u).

(** *** Sample data *)

Definition sample_user : User :=
  mkUser 1 (VStr "amin") (VStr "Amin Rahman") VNone "$argon2id$stored"
    (VStr "Admin") "Active".

Definition sample_hash (salt : string) (p : PyValue) : result string :=
  Return ("$argon2id$" +:+ salt +:+ "$" +:+ str p).

Definition tab_newline : string := String "009"%char (String "010"%char "").

Definition sample_verify (p : PyValue) (h : string) : result bool :=
  Return (String.eqb h ("$argon2id$s1$" +:+ str p)).

Definition next_id (db : Session) : Z := Z.of_nat (length db) + 1.

Definition created : User :=
  mkUser 2 (VStr "siti") (VStr "Siti") VNone "$argon2id$s1$Secret123"
    (VStr "Engineer") "Active".

End UserCrud.

(** ** views/user_management.py: the list view and its pagination *)

Module UserManagement.

(** A user as the controller hands it to the view. *)
Abbreviation UserDict := (gmap string PyValue).

(** What [controller.get_users_list] is asked. *)
Record Query := mkQuery {
  status_filter : option string;
  role_filter : option string;
  search_query : string;
  page : Z;
  q_per_page : Z
}.

(** The dictionary [controller.get_users_list] returns: [success], and the
    keys that [result.get] reads with a default. *)
Record ListResult := mkListResult {
  success : bool;
  users : option (list UserDict);
  total : option Z;
  r_total_pages : option Z;
  message : option string
}.

(** The controller is not part of the view: each call is answered by the
    controller as it is at that moment. *)
Definition Controller := Query -> ListResult.

(** A widget of the table body. *)
Inductive BodyWidget :=
  | UserRow (row_idx : Z) (number : string) (user : UserDict)
  | HintLabel (text : string).

(** The widgets of the pagination bar that [show] creates. *)
Record PaginationBar := mkBar {
  pagination_info : string;
  page_label : string;
  prev_btn : bool;
  next_btn : bool
}.

Record View := mkView {
  user_rows : list UserDict;
  table_body : option (list BodyWidget);
  current_page : Z;
  per_page : Z;
  total_pages : Z;
  total_users : Z;
  current_status_filter : option string;
  current_role_filter : option string;
  current_search : string;
  bar : option PaginationBar
}.

(** [UserManagementView.__init__] *)
Definition init : View :=
  mkView [] None 1 25 1 0 None None "" None.

Definition set_current_page (p : Z) (v : View) : View :=
  mkView (user_rows v) (table_body v) p (per_page v) (total_pages v) (total_users v)
    (current_status_filter v) (current_role_filter v) (current_search v) (bar v).

(** The number shown in column 0 by [_add_user_row(index, user)]. *)
Definition display_idx (v : View) (index : Z) : Z :=
  (current_page v - 1) * per_page v + index.

Definition _add_user_row (v : View) (index : Z) (user : UserDict) : BodyWidget :=
  UserRow index (pretty (display_idx v index)) user.

(** [for idx, user in enumerate(users, start): self._add_user_row(idx, user)] *)
Fixpoint add_rows (v : View) (start : Z) (us : list UserDict) : list BodyWidget :=
  match us with
  | [] => []
  | user :: rest => _add_user_row v start user :: add_rows v (start + 1) rest
  end.

Definition _update_pagination_display (v : View) : View :=
  match bar v with
  | None => v
  | Some _ =>
      let start := (current_page v - 1) * per_page v + 1 in
      let end_ := Z.min (current_page v * per_page v) (total_users v) in
      let info :=
        if 0 <? total_users v
        then "Showing " +:+ pretty start +:+ "-" +:+ pretty end_ +:+ " of "
               +:+ pretty (total_users v) +:+ " users"
        else "No users found" in
      let label := "Page " +:+ pretty (current_page v) +:+ " of "
                     +:+ pretty (total_pages v) in
      mkView (user_rows v) (table_body v) (current_page v) (per_page v)
        (total_pages v) (total_users v) (current_status_filter v)
        (current_role_filter v) (current_search v)
        (Some (mkBar info label (1 <? current_page v)
                 (current_page v <? total_pages v)))
  end.

Definition load_users (v : View) (us : list UserDict) (total total_pages : Z) : View :=
  let body :=
    match table_body v with
    | None => None
    | Some _ =>
        match us with
        | [] => Some [HintLabel "No users found matching the current filters."]
        | _ => Some (add_rows v 1 us)
        end
    end in
  _update_pagination_display
    (mkView us body (current_page v) (per_page v) total_pages total
       (current_status_filter v) (current_role_filter v) (current_search v) (bar v)).

(** [_refresh_users]: a failed call shows a message box and changes
    nothing in the view. *)
Definition _refresh_users (controller : Controller) (v : View) : View :=
  let result :=
    controller (mkQuery (current_status_filter v) (current_role_filter v)
                  (current_search v) (current_page v) (per_page v)) in
  if success result
  then load_users v (default [] (users result)) (default 0 (total result))
         (default 1 (r_total_pages result))
  else v.

Definition _prev_page (controller : Controller) (v : View) : View :=
  if 1 <? current_page v
  then _refresh_users controller (set_current_page (current_page v - 1) v)
  else v.

Definition _next_page (controller : Controller) (v : View) : View :=
  if current_page v <? total_pages v
  then _refresh_users controller (set_current_page (current_page v + 1) v)
  else v.

(** The filter widgets: the two combo boxes and the search entry. *)
Record FilterBar := mkFilterBar {
  status_filter_var : string;
  role_filter_var : string;
  search_entry : string
}.

Definition filter_of (var : string) : option string :=
  if bool_decide (var = "All") then None else Some var.

Definition _apply_filters (controller : Controller) (filters : FilterBar)
    (v : View) : View :=
  _refresh_users controller
    (mkView (user_rows v) (table_body v) 1 (per_page v) (total_pages v)
       (total_users v) (filter_of (status_filter_var filters))
       (filter_of (role_filter_var filters)) (strip (search_entry filters)) (bar v)).

(** [_clear_filters] resets the widgets and applies them. *)
Definition _clear_filters (controller : Controller) (v : View) : FilterBar * View :=
  let filters := mkFilterBar "All" "All" "" in
  (filters, _apply_filters controller filters v).

(** The bar shows the state of the view. *)
Definition bar_in_step (v : View) : Prop :=
  ∀ b, bar v = Some b →
    page_label b = "Page " +:+ pretty (current_page v) +:+ " of "
                     +:+ pretty (total_pages v) ∧
    prev_btn b = (1 <? current_page v) ∧
    next_btn b = (current_page v <? total_pages v).

(** A click on one of the two navigation buttons, with the controller that
    answers the refresh it may trigger. *)
Inductive Click :=
  | Prev (controller : Controller)
  | Next (controller : Controller).

Definition click (v : View) (c : Click) : View :=
  match c with
  | Prev controller => _prev_page controller v
  | Next controller => _next_page controller v
  end.

Definition clicks (cs : list Click) (v : View) : View := foldl click v cs.

Definition controller_of (c : Click) : Controller :=
  match c with Prev controller | Next controller => controller end.

(** The query [_refresh_users] sends for a view. *)
Definition query_of (v : View) : Query :=
  mkQuery (current_status_filter v) (current_role_filter v) (current_search v)
    (current_page v) (per_page v).

(** The refresh of view [w], if it succeeds, reports at least the page
    that [w] asks for. *)
Definition covers (controller : Controller) (w : View) : Prop :=
  success (controller (query_of w)) = true →
  current_page w ≤ default 1 (r_total_pages (controller (query_of w))).

(** The refresh that a click triggers, if it triggers one, covers the page
    the click moves to. *)
Definition click_covers (v : View) (c : Click) : Prop :=
  match c with
  | Prev controller =>
      1 < current_page v →
      covers controller (set_current_page (current_page v - 1) v)
  | Next controller =>
      current_page v < total_pages v →
      covers controller (set_current_page (current_page v + 1) v)
  end.

(** Every refresh triggered along a sequence of clicks covers the page
    asked for. *)
Fixpoint refreshes_cover (cs : list Click) (v : View) : Prop :=
  match cs with
  | [] => True
  | c :: cs => click_covers v c ∧ refreshes_cover cs (click v c)
  end.

(** The controller answers every query with a failure or with this number
    of pages. *)
Definition reports_pages (n : Z) (controller : Controller) : Prop :=
  ∀ q, success (controller q) = true →
       default 1 (r_total_pages (controller q)) = n.

(** *** Sample data *)

(** The view after its first refresh, on page 1 of 2. *)
Definition two_pages : View := _refresh_users
  (λ _, mkListResult true (Some []) (Some 26) (Some 2) None) init.

(** A controller that now finds 25 users, one page. *)
Definition one_page_left : Controller :=
  λ _, mkListResult true (Some []) (Some 25) (Some 1) None.

Definition steady : Controller :=
  λ q, mkListResult true (Some []) (Some 26) (Some 2) None.

(** The view once [show] has created the table body and the bar. *)
Definition shown_page_3 : View :=
  mkView [] (Some []) 3 25 3 60 None None ""
    (Some (mkBar "Loading..." "Page 1 of 1" false false)).

Definition two_users : list UserDict := [{[ "username" := VStr "amin" ]}; ∅].

(** A controller that finds 51 users, three pages. *)
Definition grown : Controller :=
  λ _, mkListResult true (Some []) (Some 51) (Some 3) None.

Definition offline : Controller :=
  λ _, mkListResult false None None None (Some "Failed to load users").

End UserManagement.

(** ** managers/state_manager.py *)

Module StateManager.

Section ViewState.

(** The [Equipment] class of the [models] module, which the state only
    stores. *)
Context {Equipment TextBox : Type}.

Record ViewState := mkViewState {
  current_page : Z;
  extraction_complete : bool;
  page_1_active : bool;
  page_2_active : bool;
  selected_files : list string;
  equipment_map : gmap string Equipment;
  extracted_equipment_data : gmap string (gmap string Equipment);
  file_to_textboxes : gmap string (list TextBox);
  converted_images_dir : option string;
  selected_excel : option string
}.

(** [ViewState()] with the dataclass defaults. *)
Definition default_state : ViewState :=
  mkViewState 1 false false false [] ∅ ∅ ∅ None None.

Definition has_files (s : ViewState) : bool :=
  bool_decide (0 < length (selected_files s))%nat.

Definition has_equipment_data (s : ViewState) : bool :=
  bool_decide (0 < size (equipment_map s))%nat.

Definition can_proceed_to_page_2 (s : ViewState) : bool :=
  extraction_complete s && has_files s.

Definition can_save (s : ViewState) : bool := has_equipment_data s.

Definition set_selected_files (l : list string) (s : ViewState) : ViewState :=
  mkViewState (current_page s) (extraction_complete s) (page_1_active s)
    (page_2_active s) l (equipment_map s) (extracted_equipment_data s)
    (file_to_textboxes s) (converted_images_dir s) (selected_excel s).

Definition add_file (file_path : string) (s : ViewState) : ViewState :=
  if bool_decide (file_path ∉ selected_files s)
  then set_selected_files (selected_files s ++ [file_path]) s
  else s.

Definition clear_files (s : ViewState) : ViewState :=
  set_selected_files [] s.

Definition set_equipment_data (file_path : string)
    (equipment_list : gmap string Equipment) (s : ViewState) : ViewState :=
  mkViewState (current_page s) (extraction_complete s) (page_1_active s)
    (page_2_active s) (selected_files s) (equipment_map s)
    (<[file_path:=equipment_list]> (extracted_equipment_data s))
    (file_to_textboxes s) (converted_images_dir s) (selected_excel s).

Definition get_equipment_for_file (file_path : string) (s : ViewState)
    : gmap string Equipment :=
  default ∅ (extracted_equipment_data s !! file_path).

(** The two operations on the file selection. *)
Inductive FileOp :=
  | AddFile (file_path : string)
  | ClearFiles.

Definition file_op (s : ViewState) (op : FileOp) : ViewState :=
  match op with
  | AddFile file_path => add_file file_path s
  | ClearFiles => clear_files s
  end.

Definition file_ops (ops : list FileOp) : ViewState := foldl file_op default_state ops.

(** One [add_file] call after the other, for the paths of a list. *)
Definition add_files (paths : list string) (s : ViewState) : ViewState :=
  foldl file_op s (AddFile <$> paths).

End ViewState.

End StateManager.

(** ** services/excel_validator.py *)

Module ExcelValidator.

Inductive ExcelFileType :=
  | DEFAULT
  | UPDATED
  | NOT_FOUND.

#[global] Instance ExcelFileType_eq_dec : EqDecision ExcelFileType.
Proof. solve_decision. Defined.

(** [s.endswith(suffix)] *)
Definition endswith (s suffix : string) : bool :=
  let n := String.length s in
  let k := String.length suffix in
  (k <=? n)%nat && String.eqb (String.substring (n - k) k s) suffix.

Section Validator.

(** The file system, as [os.path] and [os] answer, and the workbook reader
    of the [excel_manager] module.  [Mtime] is the float of [getmtime]; an
    equipment is the list of its components. *)
Context {Mtime Component : Type}.
Variable os_path_join : string -> string -> string.
Variable os_path_isdir : string -> bool.
Variable os_listdir : string -> result (list string).
Variable os_path_getmtime : string -> result Mtime.
Variable read_masterfile : string -> result (list (string * list Component)).
Variable get_existing_data_value : Component -> string -> result PyValue.

Record ExcelFileInfo := mkInfo {
  file_type : ExcelFileType;
  file_path : option string;
  has_work_done : bool;
  equipment_with_work : gset string;
  last_modified : option Mtime
}.

Definition is_excel_name (fname : string) : bool :=
  endswith (lower fname) ".xlsx" || endswith (lower fname) ".xls".

Definition _find_excel_file (directory : string) : result (option string) :=
  if negb (os_path_isdir directory) then Return None
  else
    call names <- os_listdir directory;
    match list_find (λ fname, is_excel_name fname = true) names with
    | Some (_, fname) => Return (Some (os_path_join directory fname))
    | None => Return None
    end.

Definition critical_fields : list string := ["fluid"; "type"; "spec"; "grade"].

(** [sum(1 for field in fields if component.get_existing_data_value(field))] *)
Fixpoint filled_count (component : Component) (fields : list string) : result nat :=
  match fields with
  | [] => Return 0%nat
  | field :: rest =>
      call v <- get_existing_data_value component field;
      call n <- filled_count component rest;
      Return (if truthy v then S n else n)
  end.

(** The number of critical fields that are filled, for field values
    given by [value]. *)
Definition filled (value : Component -> string -> PyValue) (component : Component) : nat :=
  length (filter (λ field, truthy (value component field) = true) critical_fields).

Fixpoint _has_completed_work (components : list Component) : result bool :=
  match components with
  | [] => Return false
  | component :: rest =>
      call n <- filled_count component critical_fields;
      if (2 <=? n)%nat then Return true else _has_completed_work rest
  end.

(** The loop of [_get_equipment_with_work]; an exception ends it with the
    numbers collected so far. *)
Fixpoint collect_work (items : list (string * list Component)) (acc : gset string)
    : gset string :=
  match items with
  | [] => acc
  | (eq_no, equipment) :: rest =>
      match _has_completed_work equipment with
      | Raise _ => acc
      | Return true => collect_work rest ({[eq_no]} ∪ acc)
      | Return false => collect_work rest acc
      end
  end.

Definition _get_equipment_with_work (excel_path : string) : gset string :=
  match read_masterfile excel_path with
  | Raise _ => ∅
  | Return equipment_map => collect_work equipment_map ∅
  end.

Definition get_excel_file_info (project_root work_id : string) : result ExcelFileInfo :=
  let base_path :=
    os_path_join (os_path_join (os_path_join (os_path_join project_root "src")
                                  "output_files") work_id) "excel" in
  let updated_path := os_path_join base_path "updated" in
  call updated_file <- _find_excel_file updated_path;
  match updated_file with
  | Some updated_file =>
      let work := _get_equipment_with_work updated_file in
      call mtime <- os_path_getmtime updated_file;
      Return (mkInfo UPDATED (Some updated_file) (bool_decide (0 < size work)%nat)
                work (Some mtime))
  | None =>
      let default_path := os_path_join base_path "default" in
      call default_file <- _find_excel_file default_path;
      match default_file with
      | Some default_file =>
          call mtime <- os_path_getmtime default_file;
          Return (mkInfo DEFAULT (Some default_file) false ∅ (Some mtime))
      | None => Return (mkInfo NOT_FOUND None false ∅ None)
      end
  end.

Definition can_upload_equipment (excel_file_info : ExcelFileInfo)
    (equipment_number : string) : bool * string :=
  if bool_decide (file_type excel_file_info = NOT_FOUND)
  then (false, "No Excel file found. Please upload default file first.")
  else if bool_decide (equipment_number ∈ equipment_with_work excel_file_info)
  then (false, "Equipment " +:+ equipment_number
                 +:+ " already has work done. Cannot re-upload.")
  else (true, "OK").

End Validator.

(** *** Sample data *)

(** A project folder with one workbook in the default folder. *)
Definition posix_join (a b : string) : string := a +:+ "/" +:+ b.

Definition sample_isdir (d : string) : bool :=
  String.eqb d "/proj/src/output_files/W1/excel/default".

Definition sample_listdir (d : string) : result (list string) :=
  Return ["notes.txt"; "Masterfile.XLSX"].

Definition sample_info : result (@ExcelFileInfo Z) :=
  get_excel_file_info (Component := unit) posix_join sample_isdir sample_listdir
    (λ _, Return 1700000000) (λ _, Return []) (λ _ _, Return VNone) "/proj" "W1".

(** A component as the dictionary of its existing data. *)
Definition dict_value (c : gmap string PyValue) (field : string) : PyValue :=
  default VNone (c !! field).

Definition sample_component : gmap string PyValue :=
  {[ "fluid" := VStr "Steam"; "type" := VStr "Shell"; "spec" := VStr "" ]}.

End ExcelValidator.

(** ** services/admin_analytics_service.py *)

Module Analytics.

(** A naive [datetime]: the date as its proleptic Gregorian ordinal
    ([date.toordinal()], 1 for 0001-01-01), and the time of day. *)
Record datetime := mkDatetime {
  ordinal : Z;
  hour : Z;
  minute : Z;
  second : Z;
  microsecond : Z
}.

(** [datetime.min.toordinal()] and [datetime.max.toordinal()] *)
Definition min_ordinal : Z := 1.
Definition max_ordinal : Z := 3652059.

(** [date(1970, 1, 1).toordinal()] *)
Definition epoch_ordinal : Z := 719163.

(** [d.replace(hour=h, minute=m, second=s, microsecond=us)] *)
Definition replace_time (d : datetime) (h m s us : Z) : datetime :=
  mkDatetime (ordinal d) h m s us.

(** [d - timedelta(days=days)] *)
Definition minus_days (d : datetime) (days : Z) : result datetime :=
  let o := ordinal d - days in
  if (o <? min_ordinal) || (max_ordinal <? o)
  then Raise (OverflowError "date value out of range")
  else Return (mkDatetime o (hour d) (minute d) (second d) (microsecond d)).

Definition lexicographic (c1 c2 : comparison) : comparison :=
  match c1 with Eq => c2 | _ => c1 end.

(** The order of two naive datetimes: field by field. *)
Definition datetime_compare (a b : datetime) : comparison :=
  lexicographic (ordinal a ?= ordinal b)
    (lexicographic (hour a ?= hour b)
       (lexicographic (minute a ?= minute b)
          (lexicographic (second a ?= second b)
             (microsecond a ?= microsecond b)))).

(** [a <= b] *)
Definition datetime_le (a b : datetime) : Prop := datetime_compare a b ≠ Gt.

Definition DateRange : Type := option datetime * option datetime.

(** [_calculate_date_range(period)], with [now] the reading of
    [datetime.utcnow()]. *)
Definition _calculate_date_range (now : datetime) (period : string) : result DateRange :=
  if bool_decide (period = "all") then Return (None, None)
  else if bool_decide (period = "today") then
    let start := replace_time now 0 0 0 0 in
    let end_ := replace_time now 23 59 59 999999 in
    Return (Some start, Some end_)
  else if bool_decide (period = "last_7_days") then
    call start <- minus_days now 7;
    Return (Some start, Some now)
  else if bool_decide (period = "last_month") then
    call start <- minus_days now 30;
    Return (Some start, Some now)
  else Return (None, None).

Definition known_periods : list string := ["all"; "today"; "last_7_days"; "last_month"].

(** A value of a summary dictionary: a scalar or a float. *)
Inductive Metric :=
  | MValue (v : PyValue)
  | MFloat (q : Q).

(** The rows the analytics CRUD functions return, with the keys the
    service reads. *)
Record TeamRow := mkTeamRow {
  total_actions : Z;
  equipment_extracted : Z;
  avg_time_per_equipment_minutes : Q
}.

Record HourRow := mkHourRow {
  hour_of_day : Z;
  hour_action_count : Z
}.

Record DayRow := mkDayRow {
  date : string;
  day_action_count : Z
}.

(** A row of the [works] table. *)
Record Work := mkWork {
  work_id : Z;
  work_name : PyValue;
  work_status : PyValue;
  created_at : option datetime
}.

Record TeamSummary := mkTeamSummary {
  total_engineers : Z;
  total_team_actions : Z;
  total_equipment_extracted : Z;
  team_avg_time_per_equipment : Q;
  summary_period : string
}.

Record WorkInfo := mkWorkInfo {
  info_work_id : Z;
  info_work_name : PyValue;
  info_status : PyValue;
  info_created_at : option string
}.

Record PeakHours := mkPeakHours {
  most_productive_hour : Z;
  most_productive_count : Z;
  least_productive_hour : Z;
  least_productive_count : Z
}.

Record Insights := mkInsights {
  total_days_active : Z;
  avg_actions_per_day : Q;
  most_active_day : option string
}.

(** The ["data"] of get_productivity_insights; [peak_hours] is [None]
    for the empty dictionary. *)
Record ProductivityData := mkProductivityData {
  hourly_productivity : list HourRow;
  daily_activity : list DayRow;
  peak_hours : option PeakHours;
  insights : Insights
}.

Section Service.

(** The session, the analytics and work CRUD functions, and the float
    operations that are not this module's. *)
Context {Db Timeline : Type}.
Variable users_of : Db -> UserCrud.Session.
Variable get_user_activity_summary :
  Db -> Z -> option datetime -> option datetime -> result (gmap string Metric).
Variable get_team_performance_comparison :
  Db -> option datetime -> option datetime -> result (list TeamRow).
Variable get_work_duration_by_user : Db -> Z -> result Timeline.
Variable get_hourly_productivity :
  Db -> option Z -> option datetime -> option datetime -> result (list HourRow).
Variable get_daily_activity :
  Db -> option Z -> option datetime -> option datetime -> result (list DayRow).
Variable get_work_by_id : Db -> Z -> result (option Work).
Variable isoformat : datetime -> string.
Variable round2 : Q -> Q.

(** A value of a response dictionary. *)
Inductive Field :=
  | FBool (b : bool)
  | FStr (s : string)
  | FSummary (summary : gmap string Metric)
  | FTeamData (rows : list TeamRow)
  | FTeamSummary (summary : TeamSummary)
  | FTimeline (timeline : Timeline)
  | FWorkInfo (info : WorkInfo)
  | FProductivity (data : ProductivityData).

Abbreviation Response := (gmap string Field).

Definition check_admin_permission (current_user : gmap string PyValue) : result unit :=
  if bool_decide (current_user !! "role" ≠ Some (VStr "Admin"))
  then Raise (UnauthorizedAccessError
                "Analytics features are only available to administrators")
  else Return tt.

(** The two [except] clauses every service function ends with. *)
Definition on_error (failure_message : string) (e : exn) : Response :=
  match e with
  | UnauthorizedAccessError _ =>
      {[ "success" := FBool false;
         "message" := FStr (exn_str e);
         "error_type" := FStr "unauthorized" ]}
  | _ =>
      {[ "success" := FBool false;
         "message" := FStr failure_message;
         "error_type" := FStr "system_error" ]}
  end.

Definition get_user_performance_summary (now : datetime) (db : Db)
    (current_user : gmap string PyValue) (user_id : Z) (period : string) : Response :=
  try_except
    (call _ <- check_admin_permission current_user;
     call range <- _calculate_date_range now period;
     call summary <- get_user_activity_summary db user_id (fst range) (snd range);
     match UserCrud.get_user_by_id (users_of db) user_id with
     | None =>
         Return {[ "success" := FBool false;
                   "message" := FStr ("User with ID " +:+ pretty user_id +:+ " not found") ]}
     | Some user =>
         let summary := <["username" := MValue (UserCrud.username user)]> summary in
         let summary := <["full_name" := MValue (UserCrud.full_name user)]> summary in
         let summary := <["email" := MValue (UserCrud.email user)]> summary in
         let summary := <["role" := MValue (UserCrud.role user)]> summary in
         Return {[ "success" := FBool true; "data" := FSummary summary ]}
     end)
    (on_error "Failed to retrieve performance summary. Please try again.").

Definition positive (q : Q) : bool := 0 <? Qnum q.

(** [sum(...)] over floats, from 0 and left to right. *)
Definition sumQ (l : list Q) : Q := foldl Qplus (inject_Z 0) l.

Definition sumZ (l : list Z) : Z := foldl Z.add 0 l.

Definition team_avg_time (team_data : list TeamRow) : Q :=
  let times := filter (λ q, positive q = true)
                 (avg_time_per_equipment_minutes <$> team_data) in
  match times with
  | [] => inject_Z 0
  | _ => Qdiv (sumQ times) (inject_Z (Z.of_nat (length times)))
  end.

Definition get_team_comparison (now : datetime) (db : Db)
    (current_user : gmap string PyValue) (period : string) : Response :=
  try_except
    (call _ <- check_admin_permission current_user;
     call range <- _calculate_date_range now period;
     call team_data <- get_team_performance_comparison db (fst range) (snd range);
     let summary :=
       mkTeamSummary (Z.of_nat (length team_data))
         (sumZ (total_actions <$> team_data))
         (sumZ (equipment_extracted <$> team_data))
         (round2 (team_avg_time team_data))
         period in
     Return {[ "success" := FBool true;
               "data" := FTeamData team_data;
               "summary" := FTeamSummary summary ]})
    (on_error "Failed to retrieve team comparison. Please try again.").

Definition get_work_timeline (db : Db) (current_user : gmap string PyValue)
    (id : Z) : Response :=
  try_except
    (call _ <- check_admin_permission current_user;
     call timeline_data <- get_work_duration_by_user db id;
     call work <- get_work_by_id db id;
     match work with
     | None =>
         Return {[ "success" := FBool false;
                   "message" := FStr ("Work with ID " +:+ pretty id +:+ " not found") ]}
     | Some work =>
         let work_info :=
           mkWorkInfo (work_id work) (work_name work) (work_status work)
             (isoformat <$> created_at work) in
         Return {[ "success" := FBool true;
                   "data" := FTimeline timeline_data;
                   "work_info" := FWorkInfo work_info ]}
     end)
    (on_error "Failed to retrieve work timeline. Please try again.").

(** [max(rows, key=...)] and [min(rows, key=...)]: the first of the rows
    with the extreme key. *)
Definition max_by {A} (key : A -> Z) (first : A) (rest : list A) : A :=
  foldl (λ best x, if key best <? key x then x else best) first rest.

Definition min_by {A} (key : A -> Z) (first : A) (rest : list A) : A :=
  foldl (λ best x, if key x <? key best then x else best) first rest.

Definition get_productivity_insights (now : datetime) (db : Db)
    (current_user : gmap string PyValue) (user_id : option Z) (period : string)
    : Response :=
  try_except
    (call _ <- check_admin_permission current_user;
     call range <- _calculate_date_range now period;
     call hourly_data <- get_hourly_productivity db user_id (fst range) (snd range);
     call daily_data <- get_daily_activity db user_id (fst range) (snd range);
     let peak :=
       match hourly_data with
       | [] => None
       | h :: hs =>
           let max_hour := max_by hour_action_count h hs in
           let min_hour := min_by hour_action_count h hs in
           Some (mkPeakHours (hour_of_day max_hour) (hour_action_count max_hour)
                   (hour_of_day min_hour) (hour_action_count min_hour))
       end in
     let insight :=
       mkInsights (Z.of_nat (length daily_data))
         match daily_data with
         | [] => inject_Z 0
         | _ => round2 (Qdiv (inject_Z (sumZ (day_action_count <$> daily_data)))
                          (inject_Z (Z.of_nat (length daily_data))))
         end
         match daily_data with
         | [] => None
         | d :: ds => Some (date (max_by day_action_count d ds))
         end in
     Return {[ "success" := FBool true;
               "data" := FProductivity
                           (mkProductivityData hourly_data daily_data peak insight) ]})
    (on_error "Failed to retrieve productivity insights. Please try again.").

(** A call of one of the four service functions. *)
Inductive Request :=
  | UserPerformanceSummary (user_id : Z) (period : string)
  | TeamComparison (period : string)
  | WorkTimeline (work_id : Z)
  | ProductivityInsights (user_id : option Z) (period : string).

Definition serve (now : datetime) (db : Db) (current_user : gmap string PyValue)
    (request : Request) : Response :=
  match request with
  | UserPerformanceSummary user_id period =>
      get_user_performance_summary now db current_user user_id period
  | TeamComparison period => get_team_comparison now db current_user period
  | WorkTimeline id => get_work_timeline db current_user id
  | ProductivityInsights user_id period =>
      get_productivity_insights now db current_user user_id period
  end.

(** The shapes of a response. *)
Definition succeeded (r : Response) : Prop := r !! "success" = Some (FBool true).

Definition failed (r : Response) : Prop :=
  r !! "success" = Some (FBool false) ∧ ∃ m, r !! "message" = Some (FStr m).

(** The request asks for a user or a work that the database does not have. *)
Definition not_found (db : Db) (request : Request) : Prop :=
  match request with
  | UserPerformanceSummary user_id _ =>
      UserCrud.get_user_by_id (users_of db) user_id = None
  | WorkTimeline id => get_work_by_id db id = Return None
  | _ => False
  end.

(** No CRUD call raises the exception of the permission check. *)
Definition never_unauthorized {A} (r : result A) : Prop :=
  ∀ m, r ≠ Raise (UnauthorizedAccessError m).

Definition crud_never_unauthorized : Prop :=
  (∀ db id a b, never_unauthorized (get_user_activity_summary db id a b)) ∧
  (∀ db a b, never_unauthorized (get_team_performance_comparison db a b)) ∧
  (∀ db id, never_unauthorized (get_work_duration_by_user db id)) ∧
  (∀ db id a b, never_unauthorized (get_hourly_productivity db id a b)) ∧
  (∀ db id a b, never_unauthorized (get_daily_activity db id a b)) ∧
  (∀ db id, never_unauthorized (get_work_by_id db id)).

(** The ways a call can end, with what led there. *)
Inductive Served (db : Db) (current_user : gmap string PyValue)
    (request : Request) (r : Response) : Prop :=
  | ServedDenied m :
      current_user !! "role" ≠ Some (VStr "Admin") →
      r !! "success" = Some (FBool false) → r !! "message" = Some (FStr m) →
      r !! "error_type" = Some (FStr "unauthorized") →
      Served db current_user request r
  | ServedData :
      current_user !! "role" = Some (VStr "Admin") →
      r !! "success" = Some (FBool true) → r !! "error_type" = None →
      Served db current_user request r
  | ServedNotFound m :
      current_user !! "role" = Some (VStr "Admin") →
      not_found db request →
      r !! "success" = Some (FBool false) → r !! "message" = Some (FStr m) →
      r !! "error_type" = None →
      Served db current_user request r
  | ServedSystemError m :
      current_user !! "role" = Some (VStr "Admin") →
      r !! "success" = Some (FBool false) → r !! "message" = Some (FStr m) →
      r !! "error_type" = Some (FStr "system_error") →
      Served db current_user request r
  | ServedCrudUnauthorized m :
      current_user !! "role" = Some (VStr "Admin") →
      ¬ crud_never_unauthorized →
      r !! "success" = Some (FBool false) → r !! "message" = Some (FStr m) →
      r !! "error_type" = Some (FStr "unauthorized") →
      Served db current_user request r.

End Service.

(** *** Sample data *)

Definition afternoon : datetime := mkDatetime 739923 14 36 5 120000.

(** A small installation: the users table is the whole database and the
    analytics tables are empty. *)
Definition demo_serve :=
  serve (Db := UserCrud.Session) (Timeline := unit)
    (λ db, db)
    (λ _ _ _ _, Return {[ "total_actions" := MValue (VInt 0) ]})
    (λ _ _ _, Return [])
    (λ _ _, Return tt)
    (λ _ _ _ _, Return [])
    (λ _ _ _ _, Return [])
    (λ _ _, Return None)
    (λ _, "")
    (λ q, q).

Definition admin_session : gmap string PyValue :=
  {[ "role" := VStr "Admin"; "username" := VStr "amin" ]}.

Definition engineer_session : gmap string PyValue :=
  {[ "role" := VStr "Engineer"; "username" := VStr "siti" ]}.

Definition taxonomy : list string := ["unauthorized"; "validation"; "system_error"].

Definition sample_hours : list HourRow :=
  [mkHourRow 9 4; mkHourRow 10 7; mkHourRow 11 7; mkHourRow 12 1; mkHourRow 13 1].

Definition sample_productivity : ProductivityData :=
  mkProductivityData sample_hours [] (Some (mkPeakHours 10 7 12 1))
    (mkInsights 0 (inject_Z 0) None).

Definition sample_summary : gmap string Metric :=
  {[ "total_actions" := MValue (VInt 12); "username" := MValue (VStr "stale") ]}.

End Analytics.

(** ** services/file_service.py *)

Module FileService.
Import ExcelValidator.

Section Service.

Variable os_path_join : string -> string -> string.
Variable os_path_isdir : string -> bool.
Variable os_listdir : string -> result (list string).

(** [for fname in os.listdir(directory): if ...: return join(directory, fname)],
    under [if os.path.isdir(directory)]. *)
Definition first_excel_in (directory : string) : result (option string) :=
  if os_path_isdir directory then
    call names <- os_listdir directory;
    Return (match list_find (λ fname,
                      endswith (lower fname) ".xlsx" || endswith (lower fname) ".xls"
                      = true) names with
            | Some (_, fname) => Some (os_path_join directory fname)
            | None => None
            end)
  else Return None.

Definition work_excel_dir (project_root work_id folder : string) : string :=
  os_path_join
    (os_path_join
       (os_path_join (os_path_join (os_path_join project_root "src") "output_files")
          work_id) "excel") folder.

(** [get_work_excel_path(work_id, project_root)]: any exception gives [None]. *)
Definition get_work_excel_path (work_id project_root : string) : option string :=
  try_except
    (let excel_dir := work_excel_dir project_root work_id "updated" in
     let default_dir := work_excel_dir project_root work_id "default" in
     call updated <- first_excel_in excel_dir;
     match updated with
     | Some path => Return (Some path)
     | None => first_excel_in default_dir
     end)
    (λ _, None).

End Service.

End FileService.

(** ** services/database_service.py *)

Module DatabaseService.

Section Service.

(** The session and the equipment CRUD functions: a call returns or raises
    and leaves the session in some state. *)
Context {Db Equipment : Type}.
Variable create_equipment :
  Db -> Z -> string -> PyValue -> PyValue -> result Equipment * Db.
Variable update_drawing_path : Db -> Equipment -> PyValue -> result unit * Db.

(** [d.get(key)] *)
Definition get (d : gmap string PyValue) (key : string) : PyValue :=
  default VNone (d !! key).

(** The body of the loop of [batch_save_equipment] for one item: whether
    it ended without an exception, and the session afterwards. *)
Definition save_one (db : Db) (work_id : Z) (eq_no : string)
    (data : gmap string PyValue) (drawing_paths : gmap string PyValue) : bool * Db :=
  let drawing_path := get drawing_paths eq_no in
  match create_equipment db work_id eq_no (get data "pmt_no") (get data "description") with
  | (Raise _, db) => (false, db)
  | (Return equipment, db) =>
      if truthy drawing_path then
        match update_drawing_path db equipment drawing_path with
        | (Raise _, db) => (false, db)
        | (Return _, db) => (true, db)
        end
      else (true, db)
  end.

(** [batch_save_equipment]: the two counters and the session. *)
Fixpoint batch_loop (db : Db) (work_id : Z)
    (items : list (string * gmap string PyValue))
    (drawing_paths : gmap string PyValue) (success failures : nat)
    : (nat * nat) * Db :=
  match items with
  | [] => ((success, failures), db)
  | (eq_no, data) :: rest =>
      match save_one db work_id eq_no data drawing_paths with
      | (true, db) => batch_loop db work_id rest drawing_paths (S success) failures
      | (false, db) => batch_loop db work_id rest drawing_paths success (S failures)
      end
  end.

Definition batch_save_equipment (db : Db) (work_id : Z)
    (updated_map : list (string * gmap string PyValue))
    (drawing_paths : gmap string PyValue) : (nat * nat) * Db :=
  batch_loop db work_id updated_map drawing_paths 0 0.

End Service.

Definition tracked_fields : list string :=
  ["fluid"; "material_spec"; "material_grade"; "insulation";
   "design_temp"; "design_pressure"; "operating_temp"; "operating_pressure"].

(** [value in [None, ""]] *)
Definition unset (value : PyValue) : bool :=
  bool_decide (value ∈ [VNone; VStr ""]).

(** [count_correction_fields(orig_comp, existing_data)]: the component is
    the dictionary of its attributes; [getattr] and [get] default to
    [None]. *)
Definition count_correction_fields (orig_comp existing_data : gmap string PyValue)
    : nat * nat :=
  let to_fill :=
    length (filter (λ field, unset (default VNone (orig_comp !! field)) = true)
              tracked_fields) in
  let corrected :=
    length (filter (λ field,
                      unset (default VNone (orig_comp !! field)) = true ∧
                      unset (default VNone (existing_data !! field)) = false)
              tracked_fields) in
  (to_fill, corrected).

(** *** Sample data *)

(** A session that counts the rows written; an equipment number that
    starts with X is refused. *)
Definition sample_create (db : nat) (work_id : Z) (eq_no : string)
    (pmt_no description : PyValue) : result nat * nat :=
  match eq_no with
  | String "X"%char _ => (Raise (ValueError "bad equipment number"), db)
  | _ => (Return (S db), S db)
  end.

Definition sample_update (db : nat) (equipment : nat) (path : PyValue)
    : result unit * nat :=
  (Return tt, db).

Definition sample_batch : list (string * gmap string PyValue) :=
  [("V-101", {[ "pmt_no" := VStr "P1" ]}); ("X-9", ∅); ("V-102", ∅)].

Definition sample_orig : gmap string PyValue :=
  {[ "fluid" := VStr ""; "insulation" := VStr "Yes"; "design_temp" := VNone ]}.

Definition sample_existing : gmap string PyValue :=
  {[ "fluid" := VStr "Steam"; "material_spec" := VStr "SA-516" ]}.

End DatabaseService.

(** ** validation_rules.py *)

Module ValidationRules.

Module UsernameRules.
Definition MIN_LENGTH : nat := 3.
Definition MAX_LENGTH : nat := 50.
End UsernameRules.

Module PasswordRules.
Definition MIN_LENGTH : nat := 8.
Definition MAX_LENGTH : nat := 128.
Definition REQUIRE_UPPERCASE : bool := true.
Definition REQUIRE_LOWERCASE : bool := true.
Definition REQUIRE_DIGITS : bool := true.
Definition REQUIRE_SPECIAL : bool := false.
End PasswordRules.

Definition between (lo hi : N) (c : ascii) : bool :=
  ((lo <=? code c) && (code c <=? hi))%N.

(** The class [[a-zA-Z0-9_-]]. *)
Definition name_char (c : ascii) : bool :=
  between 97 122 c || between 65 90 c || between 48 57 c
  || (code c =? 95)%N || (code c =? 45)%N.

Definition newline : string := String "010"%char EmptyString.

(** [re.match(r'^[a-zA-Z0-9_-]+$', s)]: one or more characters of the
    class up to the end of the string, where [$] also matches just before
    a newline that ends the string. *)
Fixpoint name_pattern (s : string) : bool :=
  match s with
  | EmptyString => false
  | String c rest =>
      name_char c &&
      match rest with
      | EmptyString => true
      | String "010"%char EmptyString => true
      | _ => name_pattern rest
      end
  end.

(** A string of one or more characters of the class. *)
Definition name_body (body : string) : Prop :=
  body ≠ "" ∧ Forall (λ c, name_char c = true) (list_ascii_of_string body).

Definition get_username_validation_error (username : string) : option string :=
  if String.eqb username "" then Some "Username is required"
  else if (String.length username <? UsernameRules.MIN_LENGTH)%nat then
    Some ("Username must be at least " +:+ pretty UsernameRules.MIN_LENGTH
            +:+ " characters")
  else if (UsernameRules.MAX_LENGTH <? String.length username)%nat then
    Some ("Username must be at most " +:+ pretty UsernameRules.MAX_LENGTH
            +:+ " characters")
  else if negb (name_pattern username) then
    Some "Username can only contain letters, numbers, underscore, and hyphen"
  else None.

(** [c.isupper()], [c.islower()] and [c.isdigit()] for a code point below
    U+0100. *)
Definition isupper (c : ascii) : bool :=
  between 65 90 c || between 192 214 c || between 216 222 c.

Definition islower (c : ascii) : bool :=
  between 97 122 c || between 223 246 c || between 248 255 c
  || (code c =? 170)%N || (code c =? 181)%N || (code c =? 186)%N.

Definition isdigit (c : ascii) : bool :=
  between 48 57 c || (code c =? 178)%N || (code c =? 179)%N || (code c =? 185)%N.

(** [any(test(c) for c in s)] *)
Definition any_char (test : ascii -> bool) (s : string) : bool :=
  existsb test (list_ascii_of_string s).

Definition get_password_validation_error (password : string) : option string :=
  if String.eqb password "" then Some "Password is required"
  else if (String.length password <? PasswordRules.MIN_LENGTH)%nat then
    Some ("Password must be at least " +:+ pretty PasswordRules.MIN_LENGTH
            +:+ " characters")
  else if (PasswordRules.MAX_LENGTH <? String.length password)%nat then
    Some ("Password must be at most " +:+ pretty PasswordRules.MAX_LENGTH
            +:+ " characters")
  else if PasswordRules.REQUIRE_UPPERCASE && negb (any_char isupper password) then
    Some "Password must contain at least one uppercase letter"
  else if PasswordRules.REQUIRE_LOWERCASE && negb (any_char islower password) then
    Some "Password must contain at least one lowercase letter"
  else if PasswordRules.REQUIRE_DIGITS && negb (any_char isdigit password) then
    Some "Password must contain at least one digit"
  else None.

End ValidationRules.

(** * Properties *)

(** ** user_crud.py: status normalization *)

Module UserCrudSpec.
Import UserCrud.

Example normalize_padded : normalize_user_status (VStr "  ENABLED ") = Some "Active".
Proof. reflexivity. Qed.

Example normalize_true : normalize_user_status (VBool true) = Some "Active".
Proof. reflexivity. Qed.

Example normalize_zero : normalize_user_status (VInt 0) = Some "Inactive".
Proof. reflexivity. Qed.

Example normalize_other : normalize_user_status (VStr "suspended") = None.
Proof. reflexivity. Qed.

Lemma words_disjoint (v : string) :
  v ∈ active_words → v ∈ inactive_words → False.
Proof.
  assert (H : Forall (λ w, w ∉ inactive_words) active_words)
    by (apply (bool_decide_unpack _); vm_compute; exact I).
  rewrite Forall_forall in H. intros Ha Hi. exact (H v Ha Hi).
Qed.

(** The result as one case analysis on the stripped, lower-cased text. *)
Lemma normalize_user_status_cases (value : PyValue) :
  normalize_user_status value =
    if bool_decide (lower (strip (str value)) ∈ active_words) then Some "Active"
    else if bool_decide (lower (strip (str value)) ∈ inactive_words) then Some "Inactive"
    else None.
Proof.
  destruct value; reflexivity.
Qed.

(** C2. For every value, [normalize_user_status] returns "Active" when the
    stripped, lower-cased [str] of the value is one of active, a, enabled,
    yes, true, 1; "Inactive" when it is one of inactive, i, disabled, no,
    false, 0; and [None] for every other value, the input [None] included. *)
Theorem normalize_user_status_mapping (value : PyValue) :
  let v := lower (strip (str value)) in
  (v ∈ active_words → normalize_user_status value = Some "Active") ∧
  (v ∈ inactive_words → normalize_user_status value = Some "Inactive") ∧
  (v ∉ active_words → v ∉ inactive_words → normalize_user_status value = None) ∧
  normalize_user_status VNone = None.
Proof.
  intros v. rewrite normalize_user_status_cases. fold v.
  split; [| split; [| split]].
  - intros Ha. by rewrite bool_decide_eq_true_2.
  - intros Hi. rewrite bool_decide_eq_false_2.
    + by rewrite bool_decide_eq_true_2.
    + intros Ha. exact (words_disjoint v Ha Hi).
  - intros Ha Hi. by rewrite !bool_decide_eq_false_2.
  - reflexivity.
Qed.

Lemma normalize_user_status_mapping_witness :
  normalize_user_status (VStr " Yes ") = Some "Active" ∧
  normalize_user_status (VInt 0) = Some "Inactive" ∧
  normalize_user_status (VStr "pending") = None.
Proof.
  split; [| split].
  - apply (normalize_user_status_mapping (VStr " Yes ")).
    apply (bool_decide_unpack _). vm_compute. exact I.
  - apply (normalize_user_status_mapping (VInt 0)).
    apply (bool_decide_unpack _). vm_compute. exact I.
  - apply (normalize_user_status_mapping (VStr "pending"));
      apply (bool_decide_unpack _); vm_compute; exact I.
Defined.

(** ** user_crud.py: the CRUD operations *)

Section CrudSpec.

Context {Salt : Type}.
Variable pwd_context_hash : Salt -> PyValue -> result string.
Variable next_user_id : Session -> Z.

#[local] Abbreviation create_user := (create_user pwd_context_hash next_user_id).
#[local] Abbreviation admin_update_user := (admin_update_user pwd_context_hash).
#[local] Abbreviation engineer_update_self := (engineer_update_self pwd_context_hash).
#[local] Abbreviation run_op := (run_op pwd_context_hash next_user_id).

Lemma status_invariant_Forall (db : Session) :
  status_invariant db ↔ Forall (λ u, valid_status (status u)) db.
Proof. unfold status_invariant. by rewrite Forall_forall. Qed.

Lemma status_invariant_insert (db : Session) (i : nat) (u : User) :
  status_invariant db → valid_status (status u) → status_invariant (<[i:=u]> db).
Proof.
  rewrite !status_invariant_Forall. intros Hdb Hu.
  by apply (Forall_insert (λ u, valid_status (status u))).
Qed.

Lemma status_invariant_snoc (db : Session) (u : User) :
  status_invariant db → valid_status (status u) → status_invariant (db ++ [u]).
Proof.
  rewrite !status_invariant_Forall. intros Hdb Hu.
  apply Forall_app. split; [assumption | by constructor].
Qed.

Lemma find_user_Some (db : Session) (id : Z) (i : nat) (u : User) :
  find_user db id = Some (i, u) → db !! i = Some u ∧ user_id u = id.
Proof.
  unfold find_user. intros H. apply list_find_Some in H as (Hi & Hid & _). done.
Qed.

Lemma find_user_valid (db : Session) (id : Z) (i : nat) (u : User) :
  status_invariant db → find_user db id = Some (i, u) → valid_status (status u).
Proof.
  intros Hdb H. apply find_user_Some in H as [H _].
  apply Hdb. apply list_elem_of_lookup. eauto.
Qed.

Lemma normalize_user_status_valid (v : PyValue) (s : string) :
  normalize_user_status v = Some s → valid_status s.
Proof.
  rewrite normalize_user_status_cases. unfold valid_status.
  repeat case_bool_decide; naive_solver.
Qed.

Lemma assign_if_present_status updates key set (u : User) :
  (∀ v u', status (set v u') = status u') →
  status (assign_if_present updates key set u) = status u.
Proof. intros H. unfold assign_if_present. destruct (updates !! key); auto. Qed.

(** The three plain assignments of [admin_update_user] keep the status. *)
Lemma admin_assignments_status updates (u : User) :
  status (assign_if_present updates "role" set_role
           (assign_if_present updates "username" set_username
             (assign_if_present updates "full_name" set_full_name u))) = status u.
Proof. rewrite !assign_if_present_status; done. Qed.

Lemma create_user_invariant salt db u f p r :
  status_invariant db → status_invariant (snd (create_user salt db u f p r)).
Proof.
  intros Hdb. unfold UserCrud.create_user, hash_password.
  destruct (pwd_context_hash salt p); simpl; [| assumption].
  apply status_invariant_snoc; [assumption | by left].
Qed.

Lemma admin_update_user_invariant salt db id updates :
  status_invariant db → status_invariant (snd (admin_update_user salt db id updates)).
Proof.
  intros Hdb. unfold UserCrud.admin_update_user.
  destruct (find_user db id) as [[i user] |] eqn:Hfind; [| assumption].
  pose proof (find_user_valid _ _ _ _ Hdb Hfind) as Hvalid.
  pose proof (admin_assignments_status updates user) as Hsame.
  set (user3 := assign_if_present updates "role" set_role _) in *.
  assert (Hvalid3 : valid_status (status user3)) by (by rewrite Hsame).
  destruct (updates !! "status") as [v |].
  - destruct (normalize_user_status v) as [normalized |] eqn:Hnorm; simpl.
    + apply normalize_user_status_valid in Hnorm.
      destruct (updates !! "password") as [pw |]; simpl.
      * unfold hash_password. destruct (pwd_context_hash salt pw); simpl;
          by apply status_invariant_insert.
      * by apply status_invariant_insert.
    + by apply status_invariant_insert.
  - destruct (updates !! "password") as [pw |]; simpl.
    + unfold hash_password. destruct (pwd_context_hash salt pw); simpl;
        by apply status_invariant_insert.
    + by apply status_invariant_insert.
Qed.

Lemma engineer_update_self_invariant salt db id f p :
  status_invariant db → status_invariant (snd (engineer_update_self salt db id f p)).
Proof.
  intros Hdb. unfold UserCrud.engineer_update_self.
  destruct (find_user db id) as [[i user] |] eqn:Hfind; [| assumption].
  pose proof (find_user_valid _ _ _ _ Hdb Hfind) as Hvalid.
  assert (Hvalid1 : valid_status
            (status (if truthy f then set_full_name f user else user)))
    by (by destruct (truthy f)).
  destruct (truthy p); simpl.
  - unfold hash_password. destruct (pwd_context_hash salt p); simpl;
      by apply status_invariant_insert.
  - by apply status_invariant_insert.
Qed.

Lemma deactivate_user_invariant db id :
  status_invariant db → status_invariant (snd (deactivate_user db id)).
Proof.
  intros Hdb. unfold deactivate_user.
  destruct (find_user db id) as [[i user] |]; [| assumption].
  apply status_invariant_insert; [assumption | by right].
Qed.

(** C3. From a database where every status is "Active" or "Inactive", each
    of create_user, register_engineer, admin_update_user,
    engineer_update_self and deactivate_user leaves a database where every
    status is "Active" or "Inactive"; a user that create_user returns is
    stored with status "Active"; and admin_update_user raises ValueError,
    changing no stored status, when the status in the updates is one that
    normalize_user_status does not recognize. *)
Theorem crud_preserves_status_invariant (op : @UserOp Salt) (db : Session) :
  status_invariant db →
  status_invariant (run_op op db) ∧
  (∀ salt u f p r user db',
      create_user salt db u f p r = (Return user, db') →
      status user = "Active" ∧ db' = db ++ [user]) ∧
  (∀ salt id updates v,
      is_Some (get_user_by_id db id) →
      updates !! "status" = Some v →
      normalize_user_status v = None →
      ∃ msg db',
        admin_update_user salt db id updates = (Raise (ValueError msg), db') ∧
        status <$> db' = status <$> db).
Proof.
  intros Hdb. split; [| split].
  - destruct op; simpl.
    + by apply create_user_invariant.
    + by apply create_user_invariant.
    + by apply admin_update_user_invariant.
    + by apply engineer_update_self_invariant.
    + by apply deactivate_user_invariant.
  - intros salt u f p r user db'. unfold UserCrud.create_user, hash_password.
    destruct (pwd_context_hash salt p); [| discriminate].
    intros [= <- <-]. done.
  - intros salt id updates v [u Hu] Hkey Hnorm.
    unfold get_user_by_id in Hu. unfold UserCrud.admin_update_user.
    destruct (find_user db id) as [[i user] |] eqn:Hfind; [| discriminate].
    rewrite Hkey, Hnorm. cbv zeta. eexists _, _. split; [reflexivity |].
    apply find_user_Some in Hfind as [Hi _].
    rewrite list_fmap_insert, admin_assignments_status.
    apply list_insert_id. by rewrite list_lookup_fmap, Hi.
Qed.

End CrudSpec.

Lemma sample_db_invariant : status_invariant [sample_user].
Proof. intros u Hu. apply list_elem_of_singleton in Hu as ->. by left. Qed.

Lemma crud_preserves_status_invariant_witness :
  status_invariant [sample_user] ∧
  status_invariant
    (run_op sample_hash (λ db, Z.of_nat (length db) + 1)
       (OpAdminUpdateUser "s1" 1 {[ "status" := VStr "disabled" ]}) [sample_user]).
Proof.
  split; [exact sample_db_invariant |].
  apply (crud_preserves_status_invariant sample_hash _
           (OpAdminUpdateUser "s1" 1 {[ "status" := VStr "disabled" ]})
           [sample_user] sample_db_invariant).
Defined.

Example admin_update_rejects_unknown_status :
  fst (admin_update_user sample_hash "s1" [sample_user] 1
         {[ "status" := VStr "suspended"; "role" := VStr "Engineer" ]})
  = Raise (ValueError "Invalid user status: suspended").
Proof. reflexivity. Qed.

Example admin_update_normalizes_status :
  status <$> snd (admin_update_user sample_hash "s1" [sample_user] 1
                    {[ "status" := VStr " NO " ]})
  = ["Inactive"].
Proof. reflexivity. Qed.

(** ** user_crud.py: soft delete *)

(** Assigning to attributes other than [user_id] of the row a query found
    leaves that row the one the same query finds. *)
Lemma find_user_insert (db : Session) (id : Z) (i : nat) (u u' : User) :
  find_user db id = Some (i, u) →
  user_id u' = user_id u →
  find_user (<[i:=u']> db) id = Some (i, u').
Proof.
  unfold find_user. intros H Hid.
  apply list_find_Some in H as (Hi & Hu & Hbefore).
  apply list_find_Some. split; [| split].
  - apply list_lookup_insert_eq. by eapply lookup_lt_Some.
  - congruence.
  - intros j y Hj Hlt. rewrite list_lookup_insert_ne in Hj by lia.
    by eapply Hbefore.
Qed.

(** C5. If a user with the id exists, deactivate_user returns that user
    with status "Inactive" and every other field as before, updates that
    row only, and get_user_by_id returns the user afterwards; if no user
    has the id, it returns None and the database is unchanged. *)
Theorem deactivate_user_frame (db : Session) (id : Z) :
  (∀ u, get_user_by_id db id = Some u →
     ∃ i u',
       deactivate_user db id = (Some u', <[i:=u']> db) ∧
       db !! i = Some u ∧
       status u' = "Inactive" ∧
       user_id u' = user_id u ∧
       username u' = username u ∧
       full_name u' = full_name u ∧
       email u' = email u ∧
       password u' = password u ∧
       role u' = role u ∧
       get_user_by_id (snd (deactivate_user db id)) id = Some u') ∧
  (get_user_by_id db id = None → deactivate_user db id = (None, db)).
Proof.
  unfold get_user_by_id, deactivate_user.
  destruct (find_user db id) as [[i user] |] eqn:Hfind; simpl.
  - split; [| discriminate].
    intros u [= <-]. exists i, (set_status "Inactive" user).
    pose proof (find_user_Some _ _ _ _ Hfind) as [Hi _].
    repeat (split; [done |]).
    by erewrite find_user_insert.
  - split; [discriminate | done].
Qed.

Lemma deactivate_user_frame_witness :
  get_user_by_id [sample_user] 1 = Some sample_user ∧
  ∃ i u',
    deactivate_user [sample_user] 1 = (Some u', <[i:=u']> [sample_user]) ∧
    [sample_user] !! i = Some sample_user ∧
    status u' = "Inactive" ∧
    user_id u' = user_id sample_user ∧
    username u' = username sample_user ∧
    full_name u' = full_name sample_user ∧
    email u' = email sample_user ∧
    password u' = password sample_user ∧
    role u' = role sample_user ∧
    get_user_by_id (snd (deactivate_user [sample_user] 1)) 1 = Some u'.
Proof.
  split; [reflexivity |].
  apply (proj1 (deactivate_user_frame [sample_user] 1) sample_user).
  reflexivity.
Defined.

Example deactivate_missing_user :
  deactivate_user [sample_user] 7 = (None, [sample_user]).
Proof. reflexivity. Qed.

End UserCrudSpec.

(** ** views/user_management.py: pagination *)

Module UserManagementSpec.
Import UserManagement.

Lemma update_pagination_display_fields (v : View) :
  current_page (_update_pagination_display v) = current_page v ∧
  total_pages (_update_pagination_display v) = total_pages v ∧
  per_page (_update_pagination_display v) = per_page v ∧
  total_users (_update_pagination_display v) = total_users v ∧
  table_body (_update_pagination_display v) = table_body v.
Proof. unfold _update_pagination_display. by destruct (bar v). Qed.

Lemma refresh_users_current_page (controller : Controller) (v : View) :
  current_page (_refresh_users controller v) = current_page v.
Proof.
  unfold _refresh_users, load_users. destruct (success _); [| done].
  by rewrite (proj1 (update_pagination_display_fields _)).
Qed.

Lemma refresh_users_total_pages (controller : Controller) (v : View) (n : Z) :
  reports_pages n controller → total_pages v = n →
  total_pages (_refresh_users controller v) = n.
Proof.
  intros Hc Hv. unfold _refresh_users, load_users.
  destruct (success _) eqn:Hs; [| done].
  rewrite (proj1 (proj2 (update_pagination_display_fields _))). simpl.
  by apply Hc.
Qed.

(** The guard of [_next_page]. *)
Lemma next_page_current_page (controller : Controller) (v : View) :
  current_page (_next_page controller v) =
    if current_page v <? total_pages v then current_page v + 1 else current_page v.
Proof.
  unfold _next_page. destruct (current_page v <? total_pages v); [| done].
  by rewrite refresh_users_current_page.
Qed.

(** The guard of [_prev_page]. *)
Lemma prev_page_current_page (controller : Controller) (v : View) :
  current_page (_prev_page controller v) =
    if 1 <? current_page v then current_page v - 1 else current_page v.
Proof.
  unfold _prev_page. destruct (1 <? current_page v); [| done].
  by rewrite refresh_users_current_page.
Qed.

Lemma click_lower_bound (v : View) (c : Click) :
  1 ≤ current_page v → 1 ≤ current_page (click v c).
Proof.
  intros Hv. destruct c as [controller | controller]; simpl.
  - rewrite prev_page_current_page. destruct (1 <? current_page v) eqn:E; lia.
  - rewrite next_page_current_page. destruct (current_page v <? total_pages v); lia.
Qed.

Lemma click_bounds (n : Z) (v : View) (c : Click) :
  reports_pages n (controller_of c) →
  1 ≤ current_page v ≤ n ∧ total_pages v = n →
  1 ≤ current_page (click v c) ≤ n ∧ total_pages (click v c) = n.
Proof.
  intros Hc [Hv Hn]. split.
  - destruct c as [controller | controller]; simpl.
    + rewrite prev_page_current_page. destruct (1 <? current_page v) eqn:E; lia.
    + rewrite next_page_current_page, Hn.
      destruct (current_page v <? n) eqn:E; lia.
  - destruct c as [controller | controller]; simpl in *.
    + unfold _prev_page. destruct (1 <? current_page v); [| done].
      by apply refresh_users_total_pages.
    + unfold _next_page. destruct (current_page v <? total_pages v); [| done].
      by apply refresh_users_total_pages.
Qed.

Lemma clicks_lower_bound (cs : list Click) (v : View) :
  1 ≤ current_page v → 1 ≤ current_page (clicks cs v).
Proof.
  revert v. induction cs as [| c cs IH]; intros v Hv; [done |].
  apply IH. by apply click_lower_bound.
Qed.

Lemma clicks_bounds (n : Z) (cs : list Click) (v : View) :
  Forall (λ c, reports_pages n (controller_of c)) cs →
  1 ≤ current_page v ≤ n ∧ total_pages v = n →
  1 ≤ current_page (clicks cs v) ≤ n ∧ total_pages (clicks cs v) = n.
Proof.
  intros Hcs. revert v. induction Hcs as [| c cs Hc _ IH]; intros v Hv; [done |].
  apply IH. by apply click_bounds.
Qed.

Example two_pages_state : current_page two_pages = 1 ∧ total_pages two_pages = 2.
Proof. split; reflexivity. Qed.

(** C6, as stated, fails: the refresh that follows a page change reloads
    [total_pages] from the controller, and nothing clamps [current_page]. *)
Lemma page_bounds_counterexample :
  ¬ (∀ (v : View) (cs : list Click),
       current_page v = 1 → 1 ≤ total_pages v →
       1 ≤ current_page (clicks cs v) ≤ total_pages (clicks cs v)).
Proof.
  intros H.
  specialize (H two_pages [Next one_page_left] eq_refl).
  vm_compute in H. destruct H as [_ H]; [discriminate |]. by apply H.
Qed.

Lemma refresh_users_total_pages_eq (controller : Controller) (w : View) :
  total_pages (_refresh_users controller w) =
    if success (controller (query_of w))
    then default 1 (r_total_pages (controller (query_of w)))
    else total_pages w.
Proof.
  unfold _refresh_users, load_users, query_of. destruct (success _); [| done].
  by rewrite (proj1 (proj2 (update_pagination_display_fields _))).
Qed.

(** After one click from a view within its pages, the page is within the
    pages exactly when the refresh the click triggered covers it. *)
Lemma click_upper_iff (v : View) (c : Click) :
  current_page v ≤ total_pages v →
  current_page (click v c) ≤ total_pages (click v c) ↔ click_covers v c.
Proof.
  intros Hv. destruct c as [controller | controller]; simpl.
  - unfold _prev_page, covers. destruct (1 <? current_page v) eqn:Hguard.
    + apply Z.ltb_lt in Hguard.
      rewrite refresh_users_current_page, refresh_users_total_pages_eq.
      destruct (success _); simpl; split; intros; auto; lia.
    + apply Z.ltb_ge in Hguard. split; [intros _ ? | done]. lia.
  - unfold _next_page, covers.
    destruct (current_page v <? total_pages v) eqn:Hguard.
    + apply Z.ltb_lt in Hguard.
      rewrite refresh_users_current_page, refresh_users_total_pages_eq.
      destruct (success _); simpl; split; intros; auto; lia.
    + apply Z.ltb_ge in Hguard. split; [intros _ ? | done]. lia.
Qed.

Lemma clicks_upper_iff (cs : list Click) (v : View) :
  current_page v ≤ total_pages v →
  (∀ k, current_page (clicks (take k cs) v) ≤ total_pages (clicks (take k cs) v))
  ↔ refreshes_cover cs v.
Proof.
  revert v. induction cs as [| c cs IH]; intros v Hv.
  - split; [done |]. intros _ k. by rewrite take_nil.
  - pose proof (click_upper_iff v c Hv) as Hstep. split.
    + intros Hkept.
      assert (Hafter : current_page (click v c) ≤ total_pages (click v c))
        by exact (Hkept 1%nat).
      split; [by apply Hstep |].
      apply (IH _ Hafter). intros k. exact (Hkept (S k)).
    + intros [Hc Hrest] k.
      assert (Hafter : current_page (click v c) ≤ total_pages (click v c))
        by (by apply Hstep).
      destruct k as [| k]; [done |].
      by apply (IH _ Hafter).
Qed.

(** A controller that always reports the same number of pages covers
    every page the guards let through. *)
Lemma reports_pages_cover (n : Z) (cs : list Click) (v : View) :
  Forall (λ c, reports_pages n (controller_of c)) cs →
  1 ≤ current_page v ≤ n ∧ total_pages v = n →
  refreshes_cover cs v.
Proof.
  intros Hcs. revert v. induction Hcs as [| c cs Hc _ IH]; intros v Hv; [done |].
  split; [| apply IH; by apply click_bounds].
  destruct Hv as [Hb Hn].
  destruct c as [controller | controller]; simpl in *; intros Hguard Hsuccess;
    rewrite (Hc _ Hsuccess); simpl; lia.
Qed.

(** C6, amended. From [current_page = 1] with [total_pages >= 1], every
    sequence of _prev_page and _next_page calls keeps [1 <= current_page].
    It keeps [current_page <= total_pages] after every call exactly when
    every refresh that a call on the way triggers either fails or reports
    a number of pages that is at least the page asked for.  _next_page
    increments only when [current_page < total_pages]; _prev_page
    decrements only when [current_page > 1]. *)
Theorem page_bounds (v : View) (cs : list Click) :
  current_page v = 1 → 1 ≤ total_pages v →
  1 ≤ current_page (clicks cs v) ∧
  ((∀ k, current_page (clicks (take k cs) v) ≤ total_pages (clicks (take k cs) v))
   ↔ refreshes_cover cs v) ∧
  (refreshes_cover cs v → current_page (clicks cs v) ≤ total_pages (clicks cs v)) ∧
  (∀ controller w,
     current_page (_next_page controller w) =
       if current_page w <? total_pages w then current_page w + 1
       else current_page w) ∧
  (∀ controller w,
     current_page (_prev_page controller w) =
       if 1 <? current_page w then current_page w - 1 else current_page w).
Proof.
  intros Hp Hn.
  assert (Hv : current_page v ≤ total_pages v) by lia.
  split; [| split; [| split; [| split]]].
  - apply clicks_lower_bound. lia.
  - by apply clicks_upper_iff.
  - intros Hcover.
    pose proof (proj2 (clicks_upper_iff cs v Hv) Hcover (length cs)) as Hend.
    by rewrite firstn_all in Hend.
  - apply next_page_current_page.
  - apply prev_page_current_page.
Qed.

Lemma page_bounds_witness :
  1 ≤ current_page (clicks [Next grown; Next grown; Next grown] two_pages) ∧
  current_page (clicks [Next grown; Next grown; Next grown] two_pages)
    ≤ total_pages (clicks [Next grown; Next grown; Next grown] two_pages).
Proof.
  destruct (page_bounds two_pages [Next grown; Next grown; Next grown])
    as (Hlow & _ & Hup & _).
  - reflexivity.
  - vm_compute. discriminate.
  - split; [exact Hlow |]. apply Hup.
    repeat split; intros Hguard Hsuccess;
      first [ by vm_compute in Hguard | vm_compute; discriminate ].
Defined.

Example grown_list_reaches_page_3 :
  current_page (clicks [Next grown; Next grown] two_pages) = 3 ∧
  total_pages (clicks [Next grown; Next grown] two_pages) = 3.
Proof. split; reflexivity. Qed.

(** The refresh of the failing sequence does not cover the page asked for. *)
Example shrunk_list_not_covered : ¬ refreshes_cover [Next one_page_left] two_pages.
Proof. intros [H _]. vm_compute in H. by apply H. Qed.

Example next_stops_at_last_page :
  current_page (clicks [Next steady; Next steady; Next steady] two_pages) = 2.
Proof. reflexivity. Qed.

Lemma add_rows_lookup (v : View) (us : list UserDict) (start : Z) (i : nat)
    (user : UserDict) :
  us !! i = Some user →
  add_rows v start us !! i
    = Some (UserRow (start + Z.of_nat i)
              (pretty (display_idx v (start + Z.of_nat i))) user).
Proof.
  revert start i. induction us as [| u us IH]; intros start i H; [done |].
  destruct i as [| i].
  - injection H as ->. simpl. unfold _add_user_row. by rewrite Z.add_0_r.
  - change (add_rows v (start + 1) us !! i = Some
             (UserRow (start + Z.of_nat (S i))
                (pretty (display_idx v (start + Z.of_nat (S i)))) user)).
    rewrite (IH (start + 1) i H).
    by replace (start + 1 + Z.of_nat i) with (start + Z.of_nat (S i)) by lia.
Qed.

(** C7. With [per_page = 25], on page [p >= 1] with [n > 0] users in all,
    the view shows the range from [(p - 1) * 25 + 1] to [min(p * 25, n)],
    and the i-th row of the page, counted from 1, carries the number
    [(p - 1) * 25 + i]. *)
Theorem pagination_display (v : View) (us : list UserDict) (p n pages : Z) :
  per_page v = 25 → current_page v = p →
  is_Some (bar v) → is_Some (table_body v) →
  1 ≤ p → 0 < n →
  let v' := load_users v us n pages in
  pagination_info <$> bar v'
    = Some ("Showing " +:+ pretty ((p - 1) * 25 + 1) +:+ "-"
              +:+ pretty (Z.min (p * 25) n) +:+ " of " +:+ pretty n +:+ " users") ∧
  ∀ (i : nat) (user : UserDict),
    us !! i = Some user →
    ∃ rows, table_body v' = Some rows ∧
      rows !! i = Some (UserRow (Z.of_nat i + 1)
                          (pretty ((p - 1) * 25 + (Z.of_nat i + 1))) user).
Proof.
  intros Hper Hp [b Hb] [body Hbody] Hp1 Hn v'. subst v'. split.
  - unfold load_users, _update_pagination_display. simpl. rewrite Hb. simpl.
    rewrite Hper, Hp. by rewrite (proj2 (Z.ltb_lt 0 n) Hn).
  - intros i user Hi. unfold load_users.
    rewrite (proj2 (proj2 (proj2 (proj2 (update_pagination_display_fields _))))).
    simpl. rewrite Hbody. destruct us as [| u0 us0]; [done |].
    eexists. split; [reflexivity |].
    rewrite (add_rows_lookup v _ 1 i user Hi).
    unfold display_idx. rewrite Hper, Hp.
    by replace (1 + Z.of_nat i) with (Z.of_nat i + 1) by lia.
Qed.

Lemma pagination_display_witness :
  pagination_info <$> bar (load_users shown_page_3 two_users 60 3)
    = Some "Showing 51-60 of 60 users" ∧
  ∃ rows, table_body (load_users shown_page_3 two_users 60 3) = Some rows ∧
    rows !! 1%nat = Some (UserRow 2 "52" ∅).
Proof.
  destruct (pagination_display shown_page_3 two_users 3 60 3) as [Hinfo Hrows].
  - reflexivity.
  - reflexivity.
  - by eexists.
  - by eexists.
  - lia.
  - lia.
  - split; [exact Hinfo | exact (Hrows 1%nat ∅ eq_refl)].
Defined.

End UserManagementSpec.

(** ** managers/state_manager.py: the file selection *)

Module StateManagerSpec.
Import StateManager.

Section FileSelection.

Context {Equipment TextBox : Type}.

Abbreviation State := (@ViewState Equipment TextBox).

Lemma add_file_selected (file_path : string) (s : State) :
  selected_files (add_file file_path s) =
    if bool_decide (file_path ∈ selected_files s) then selected_files s
    else selected_files s ++ [file_path].
Proof.
  unfold add_file. repeat case_bool_decide; done.
Qed.

Lemma file_op_NoDup (s : State) (op : FileOp) :
  NoDup (selected_files s) → NoDup (selected_files (file_op s op)).
Proof.
  intros Hs. destruct op as [file_path |]; simpl.
  - rewrite add_file_selected. case_bool_decide; [done |].
    apply NoDup_app. split; [done |]. split.
    + intros x Hx Hx'. apply list_elem_of_singleton in Hx' as ->. done.
    + apply NoDup_singleton.
  - apply NoDup_nil_2.
Qed.

Lemma file_ops_NoDup (ops : list FileOp) (s : State) :
  NoDup (selected_files s) → NoDup (selected_files (foldl file_op s ops)).
Proof.
  revert s. induction ops as [| op ops IH]; intros s Hs; [done |].
  apply IH. by apply file_op_NoDup.
Qed.

Lemma has_files_nonempty (s : State) :
  has_files s = true ↔ selected_files s ≠ [].
Proof.
  unfold has_files. rewrite bool_decide_eq_true.
  destruct (selected_files s); simpl; split; intros; try done; lia.
Qed.

Lemma add_file_twice (file_path : string) (s : State) :
  add_file file_path (add_file file_path s) = add_file file_path s.
Proof.
  unfold add_file at 1. rewrite bool_decide_eq_false_2; [done |].
  intros Hn. apply Hn. rewrite add_file_selected.
  case_bool_decide; [done |]. apply elem_of_app. right. by apply list_elem_of_singleton.
Qed.

(** C8. After every sequence of add_file and clear_files from the empty
    state, selected_files holds no path twice; has_files is True exactly
    when selected_files is not empty; and adding a path a second time
    changes nothing. *)
Theorem selected_files_invariant (ops : list FileOp) :
  let s : State := file_ops ops in
  NoDup (selected_files s) ∧
  (has_files s = true ↔ selected_files s ≠ []) ∧
  (∀ file_path, add_file file_path (add_file file_path s) = add_file file_path s).
Proof.
  intros s. split; [| split].
  - apply file_ops_NoDup. apply NoDup_nil_2.
  - apply has_files_nonempty.
  - intros file_path. apply add_file_twice.
Qed.

End FileSelection.

Example add_same_file_twice :
  selected_files (@file_ops unit unit [AddFile "a.pdf"; AddFile "b.pdf"; AddFile "a.pdf"])
  = ["a.pdf"; "b.pdf"].
Proof. reflexivity. Qed.

Example clear_then_no_files :
  has_files (@file_ops unit unit [AddFile "a.pdf"; ClearFiles]) = false.
Proof. reflexivity. Qed.

End StateManagerSpec.

(** ** services/excel_validator.py: upload gating *)

Module ExcelValidatorSpec.
Import ExcelValidator.

Section Gating.

Context {Mtime Component : Type}.
Variable os_path_join : string -> string -> string.
Variable os_path_isdir : string -> bool.
Variable os_listdir : string -> result (list string).
Variable os_path_getmtime : string -> result Mtime.
Variable read_masterfile : string -> result (list (string * list Component)).
Variable get_existing_data_value : Component -> string -> result PyValue.

#[local] Abbreviation get_excel_file_info :=
  (get_excel_file_info os_path_join os_path_isdir os_listdir os_path_getmtime
     read_masterfile get_existing_data_value).

Lemma can_upload_equipment_ok (info : @ExcelFileInfo Mtime) (number : string) :
  can_upload_equipment info number = (true, "OK") ↔
  file_type info ≠ NOT_FOUND ∧ number ∉ equipment_with_work info.
Proof.
  unfold can_upload_equipment. repeat case_bool_decide; split.
  all: try discriminate.
  all: try (intros [? ?]; done).
  all: done.
Qed.

(** What [get_excel_file_info] builds for a file in the default folder. *)
Lemma default_info_fields (project_root work_id : string) (info : ExcelFileInfo) :
  get_excel_file_info project_root work_id = Return info →
  file_type info = DEFAULT →
  has_work_done info = false ∧ equipment_with_work info = ∅.
Proof.
  unfold ExcelValidator.get_excel_file_info. intros H Ht.
  destruct (_find_excel_file _ _ _ _) as [[updated_file |] |]; simpl in H;
    [| | discriminate].
  - destruct (os_path_getmtime updated_file); simpl in H; [| discriminate].
    injection H as <-. discriminate.
  - destruct (_find_excel_file _ _ _ _) as [[default_file |] |]; simpl in H;
      [| | discriminate].
    + destruct (os_path_getmtime default_file); simpl in H; [| discriminate].
      by injection H as <-.
    + injection H as <-. discriminate.
Qed.

(** C9. can_upload_equipment returns (True, "OK") if and only if the file
    type is not NOT_FOUND and the equipment number is not in
    equipment_with_work; for a DEFAULT file as get_excel_file_info builds
    it, equipment_with_work is empty, has_work_done is False, and every
    equipment number may be uploaded. *)
Theorem upload_gating (info : @ExcelFileInfo Mtime) (number : string) :
  (can_upload_equipment info number = (true, "OK") ↔
     file_type info ≠ NOT_FOUND ∧ number ∉ equipment_with_work info) ∧
  (∀ project_root work_id built,
     get_excel_file_info project_root work_id = Return built →
     file_type built = DEFAULT →
     has_work_done built = false ∧
     equipment_with_work built = ∅ ∧
     ∀ any_number, can_upload_equipment built any_number = (true, "OK")).
Proof.
  split; [apply can_upload_equipment_ok |].
  intros project_root work_id built Hbuilt Htype.
  destruct (default_info_fields _ _ _ Hbuilt Htype) as [Hdone Hwork].
  split; [done |]. split; [done |].
  intros any_number. apply can_upload_equipment_ok.
  rewrite Htype, Hwork. split; [done | set_solver].
Qed.

End Gating.

Example sample_info_default :
  sample_info =
    Return (mkInfo DEFAULT
              (Some "/proj/src/output_files/W1/excel/default/Masterfile.XLSX")
              false ∅ (Some 1700000000)).
Proof. reflexivity. Qed.

Lemma upload_gating_witness :
  has_work_done
    (mkInfo DEFAULT (Some "/proj/src/output_files/W1/excel/default/Masterfile.XLSX")
       false ∅ (Some 1700000000)) = false ∧
  can_upload_equipment
    (mkInfo DEFAULT (Some "/proj/src/output_files/W1/excel/default/Masterfile.XLSX")
       false ∅ (Some 1700000000)) "V-101" = (true, "OK").
Proof.
  destruct (proj2 (upload_gating (Component := unit) posix_join sample_isdir
                     sample_listdir (λ _, Return 1700000000) (λ _, Return [])
                     (λ _ _, Return VNone)
                     (mkInfo NOT_FOUND None false ∅ None) "V-101") "/proj" "W1"
              (mkInfo DEFAULT
                 (Some "/proj/src/output_files/W1/excel/default/Masterfile.XLSX")
                 false ∅ (Some 1700000000)))
    as (Hdone & _ & Hupload).
  - reflexivity.
  - reflexivity.
  - split; [exact Hdone | exact (Hupload "V-101")].
Defined.

Example upload_blocked_after_work :
  can_upload_equipment (Mtime := Z)
    (mkInfo UPDATED (Some "m.xlsx") true {[ "V-101" ]} None) "V-101"
  = (false, "Equipment V-101 already has work done. Cannot re-upload.").
Proof. reflexivity. Qed.

Example upload_blocked_without_file :
  fst (can_upload_equipment (Mtime := Z) (mkInfo NOT_FOUND None false ∅ None) "V-101")
  = false.
Proof. reflexivity. Qed.

End ExcelValidatorSpec.

(** ** services/admin_analytics_service.py: the date range *)

Module AnalyticsSpec.
Import Analytics.

Lemma minus_days_returns (now : datetime) (days : Z) :
  min_ordinal + days ≤ ordinal now ≤ max_ordinal + days →
  minus_days now days =
    Return (mkDatetime (ordinal now - days) (hour now) (minute now) (second now)
              (microsecond now)).
Proof.
  intros H. unfold minus_days.
  rewrite (proj2 (Z.ltb_ge _ _)) by lia.
  rewrite (proj2 (Z.ltb_ge _ _)) by lia.
  reflexivity.
Qed.

Lemma unknown_period_default (now : datetime) (period : string) :
  period ∉ known_periods → _calculate_date_range now period = Return (None, None).
Proof.
  unfold known_periods. rewrite !not_elem_of_cons. intros (H1 & H2 & H3 & H4 & _).
  unfold _calculate_date_range. by rewrite !bool_decide_eq_false_2.
Qed.

Lemma today_range (now : datetime) :
  _calculate_date_range now "today" =
    Return (Some (replace_time now 0 0 0 0), Some (replace_time now 23 59 59 999999)).
Proof. reflexivity. Qed.

Lemma today_start_le_end (now : datetime) :
  datetime_le (replace_time now 0 0 0 0) (replace_time now 23 59 59 999999).
Proof.
  unfold datetime_le, datetime_compare, replace_time. simpl.
  rewrite Z.compare_refl. simpl. discriminate.
Qed.

(** C10. With the clock at or after the Unix epoch, _calculate_date_range
    returns for every period string; a period other than all, today,
    last_7_days and last_month gives (None, None), as "all" does; and for
    "today" the start is not after the end and both are on the day the
    clock reads. *)
Theorem calculate_date_range_total (now : datetime) (period : string) :
  epoch_ordinal ≤ ordinal now ≤ max_ordinal →
  (∃ range, _calculate_date_range now period = Return range) ∧
  (period ∉ known_periods →
     _calculate_date_range now period = Return (None, None) ∧
     _calculate_date_range now period = _calculate_date_range now "all") ∧
  (∃ start end_,
     _calculate_date_range now "today" = Return (Some start, Some end_) ∧
     datetime_le start end_ ∧
     ordinal start = ordinal now ∧ ordinal end_ = ordinal now).
Proof.
  unfold epoch_ordinal, max_ordinal. intros Hnow. split; [| split].
  - unfold _calculate_date_range.
    repeat case_bool_decide; try (by eexists).
    + rewrite minus_days_returns by (unfold min_ordinal, max_ordinal; lia).
      by eexists.
    + rewrite minus_days_returns by (unfold min_ordinal, max_ordinal; lia).
      by eexists.
  - intros Hp. split; [by apply unknown_period_default |].
    by rewrite unknown_period_default.
  - eexists _, _. split; [apply today_range |].
    split; [apply today_start_le_end |]. done.
Qed.

Lemma calculate_date_range_total_witness :
  ∃ range, _calculate_date_range afternoon "last_month" = Return range.
Proof.
  apply (calculate_date_range_total afternoon "last_month").
  unfold epoch_ordinal, max_ordinal, afternoon. simpl. lia.
Defined.

Example last_7_days_range :
  _calculate_date_range afternoon "last_7_days"
  = Return (Some (mkDatetime 739916 14 36 5 120000), Some afternoon).
Proof. reflexivity. Qed.

Example misspelt_period : _calculate_date_range afternoon "Today" = Return (None, None).
Proof. reflexivity. Qed.

(** Before the eighth day of year 1, the subtraction leaves the range of
    [datetime]. *)
Example last_7_days_overflow :
  _calculate_date_range (mkDatetime 3 0 0 0 0) "last_7_days"
  = Raise (OverflowError "date value out of range").
Proof. reflexivity. Qed.

(** ** services/admin_analytics_service.py: error conversion *)

Section ErrorConversion.

Context {Db Timeline : Type}.
Variable users_of : Db -> UserCrud.Session.
Variable get_user_activity_summary :
  Db -> Z -> option datetime -> option datetime -> result (gmap string Metric).
Variable get_team_performance_comparison :
  Db -> option datetime -> option datetime -> result (list TeamRow).
Variable get_work_duration_by_user : Db -> Z -> result Timeline.
Variable get_hourly_productivity :
  Db -> option Z -> option datetime -> option datetime -> result (list HourRow).
Variable get_daily_activity :
  Db -> option Z -> option datetime -> option datetime -> result (list DayRow).
Variable get_work_by_id : Db -> Z -> result (option Work).
Variable isoformat : datetime -> string.
Variable round2 : Q -> Q.

#[local] Abbreviation serve :=
  (serve users_of get_user_activity_summary get_team_performance_comparison
     get_work_duration_by_user get_hourly_productivity get_daily_activity
     get_work_by_id isoformat round2).
#[local] Abbreviation not_found := (not_found users_of get_work_by_id).
#[local] Abbreviation crud_never_unauthorized :=
  (crud_never_unauthorized get_user_activity_summary
     get_team_performance_comparison get_work_duration_by_user
     get_hourly_productivity get_daily_activity get_work_by_id).
#[local] Abbreviation Response := (gmap string (@Field Timeline)).
#[local] Abbreviation Served :=
  (Served users_of get_user_activity_summary get_team_performance_comparison
     get_work_duration_by_user get_hourly_productivity get_daily_activity
     get_work_by_id).

Lemma date_range_raises (now : datetime) (period : string) (e : exn) :
  _calculate_date_range now period = Raise e →
  e = OverflowError "date value out of range".
Proof.
  unfold _calculate_date_range, minus_days.
  repeat case_bool_decide; try discriminate;
    destruct (_ || _); simpl; congruence.
Qed.

(** A CRUD call raised [e]: the response is that of an except clause. *)
Ltac crud_raised e :=
  destruct e; simpl; try (by eapply ServedSystemError);
  eapply ServedCrudUnauthorized; try done;
  intros (H1 & H2 & H3 & H4 & H5 & H6);
  first [ by eapply H1 | by eapply H2 | by eapply H3
        | by eapply H4 | by eapply H5 | by eapply H6 ].

Ltac date_range_raised H :=
  apply date_range_raises in H as ->; by eapply ServedSystemError.

Lemma serve_cases (now : datetime) (db : Db) (current_user : gmap string PyValue)
    (request : Request) :
  Served db current_user request (serve now db current_user request).
Proof.
  destruct request as [user_id period | period | id | user_id period]; simpl.
  - unfold get_user_performance_summary, check_admin_permission.
    case_bool_decide as Hrole; simpl; [by eapply ServedDenied |].
    destruct (_calculate_date_range now period) as [range | e] eqn:Hrange; simpl;
      [| date_range_raised Hrange].
    destruct (get_user_activity_summary db user_id (fst range) (snd range))
      as [summary | e] eqn:Hsummary; simpl; [| crud_raised e].
    destruct (UserCrud.get_user_by_id (users_of db) user_id) eqn:Huser; simpl.
    + by eapply ServedData.
    + by eapply ServedNotFound.
  - unfold get_team_comparison, check_admin_permission.
    case_bool_decide as Hrole; simpl; [by eapply ServedDenied |].
    destruct (_calculate_date_range now period) as [range | e] eqn:Hrange; simpl;
      [| date_range_raised Hrange].
    destruct (get_team_performance_comparison db (fst range) (snd range))
      as [team_data | e] eqn:Hteam; simpl; [| crud_raised e].
    by eapply ServedData.
  - unfold get_work_timeline, check_admin_permission.
    case_bool_decide as Hrole; simpl; [by eapply ServedDenied |].
    destruct (get_work_duration_by_user db id) as [timeline | e] eqn:Htimeline;
      simpl; [| crud_raised e].
    destruct (get_work_by_id db id) as [[work |] | e] eqn:Hwork; simpl;
      [| | crud_raised e].
    + by eapply ServedData.
    + by eapply ServedNotFound.
  - unfold get_productivity_insights, check_admin_permission.
    case_bool_decide as Hrole; simpl; [by eapply ServedDenied |].
    destruct (_calculate_date_range now period) as [range | e] eqn:Hrange; simpl;
      [| date_range_raised Hrange].
    destruct (get_hourly_productivity db user_id (fst range) (snd range))
      as [hourly | e] eqn:Hhourly; simpl; [| crud_raised e].
    destruct (get_daily_activity db user_id (fst range) (snd range))
      as [daily | e] eqn:Hdaily; simpl; [| crud_raised e].
    by eapply ServedData.
Qed.

(** C4, amended. Each of the four service functions returns a dictionary
    for every input.  An unsuccessful one has "success": False and a
    "message" string; its "error_type" is "unauthorized" or "system_error"
    when an exception was caught, and is absent when the user or the work
    asked for was not found.  It is "unauthorized" whenever the caller's
    role is not "Admin", and only then as long as no CRUD call raises
    UnauthorizedAccessError itself. *)
Theorem analytics_error_conversion (now : datetime) (db : Db)
    (current_user : gmap string PyValue) (request : Request) :
  let r := serve now db current_user request in
  (succeeded r ∨ failed r) ∧
  (failed r →
     r !! "error_type" = Some (FStr "unauthorized") ∨
     r !! "error_type" = Some (FStr "system_error") ∨
     (r !! "error_type" = None ∧ not_found db request)) ∧
  (current_user !! "role" ≠ Some (VStr "Admin") →
     failed r ∧ r !! "error_type" = Some (FStr "unauthorized")) ∧
  (crud_never_unauthorized →
     r !! "error_type" = Some (FStr "unauthorized") →
     current_user !! "role" ≠ Some (VStr "Admin")).
Proof.
  intros r. unfold succeeded, failed.
  destruct (serve_cases now db current_user request)
    as [m Hrole Hs Hm He | Hrole Hs He | m Hrole Hnf Hs Hm He
       | m Hrole Hs Hm He | m Hrole Hcrud Hs Hm He]; fold r in Hs, He.
  all: try fold r in Hm.
  all: split; [| split; [| split]].
  all: try (intros [Hf _]; rewrite Hs in Hf; discriminate).
  all: try (intros Hn; by destruct (Hn Hrole)).
  all: try (intros _ Hu; rewrite He in Hu; discriminate).
  all: eauto 8.
Qed.

End ErrorConversion.

(** C4, as stated, fails: the reply for a user that does not exist is
    unsuccessful and carries no "error_type". *)
Lemma missing_user_reply_has_no_error_type :
  failed (demo_serve afternoon [] admin_session (UserPerformanceSummary 7 "today")) ∧
  demo_serve afternoon [] admin_session (UserPerformanceSummary 7 "today")
    !! "message" = Some (FStr "User with ID 7 not found") ∧
  ¬ (∃ t, t ∈ taxonomy ∧
       demo_serve afternoon [] admin_session (UserPerformanceSummary 7 "today")
         !! "error_type" = Some (FStr t)).
Proof.
  split; [| split].
  - split; [reflexivity | by eexists].
  - reflexivity.
  - intros (t & _ & Ht). vm_compute in Ht. discriminate.
Qed.

Lemma analytics_error_conversion_witness :
  failed (demo_serve afternoon [] engineer_session (TeamComparison "last_7_days")) ∧
  demo_serve afternoon [] engineer_session (TeamComparison "last_7_days")
    !! "error_type" = Some (FStr "unauthorized").
Proof.
  apply (analytics_error_conversion (Db := UserCrud.Session) (Timeline := unit)
           (λ db, db)
           (λ _ _ _ _, Return {[ "total_actions" := MValue (VInt 0) ]})
           (λ _ _ _, Return [])
           (λ _ _, Return tt)
           (λ _ _ _ _, Return [])
           (λ _ _ _ _, Return [])
           (λ _ _, Return None)
           (λ _, "")
           (λ q, q)
           afternoon [] engineer_session (TeamComparison "last_7_days")).
  vm_compute. discriminate.
Defined.

Example admin_team_comparison_succeeds :
  succeeded (demo_serve afternoon [] admin_session (TeamComparison "all")).
Proof. reflexivity. Qed.

Example missing_work_reply :
  demo_serve afternoon [] admin_session (WorkTimeline 3)
  = {[ "success" := FBool false; "message" := FStr "Work with ID 3 not found" ]}.
Proof. reflexivity. Qed.

End AnalyticsSpec.

(** * Further properties *)

(** ** Python strings *)

Module PySpec.

Lemma isspace_lower_char (c : ascii) : isspace (lower_char c) = isspace c.
Proof. destruct c as [[] [] [] [] [] [] [] []]; reflexivity. Qed.

Lemma lower_char_idemp (c : ascii) : lower_char (lower_char c) = lower_char c.
Proof. destruct c as [[] [] [] [] [] [] [] []]; reflexivity. Qed.

Lemma lower_idemp (s : string) : lower (lower s) = lower s.
Proof.
  induction s as [| c s IH]; simpl; [done |].
  by rewrite lower_char_idemp, IH.
Qed.

Lemma lower_lstrip (s : string) : lower (lstrip s) = lstrip (lower s).
Proof.
  induction s as [| c s IH]; simpl; [done |].
  rewrite isspace_lower_char. by destruct (isspace c).
Qed.

Lemma lower_rstrip (s : string) : lower (rstrip s) = rstrip (lower s).
Proof.
  induction s as [| c s IH]; simpl; [done |].
  rewrite <- IH, isspace_lower_char.
  destruct (rstrip s); simpl; [by destruct (isspace c) | done].
Qed.

Lemma lower_strip (s : string) : lower (strip s) = strip (lower s).
Proof. unfold strip. by rewrite lower_rstrip, lower_lstrip. Qed.

Lemma lstrip_blank (pad : string) : blank pad = true → lstrip pad = "".
Proof.
  induction pad as [| c pad IH]; simpl; [done |].
  intros [Hc Hpad]%andb_true_iff. rewrite Hc. by apply IH.
Qed.

Lemma rstrip_blank (pad : string) : blank pad = true → rstrip pad = "".
Proof.
  induction pad as [| c pad IH]; simpl; [done |].
  intros [Hc Hpad]%andb_true_iff. by rewrite (IH Hpad), Hc.
Qed.

Lemma lstrip_app_blank (pad s : string) :
  blank pad = true → lstrip (pad +:+ s) = lstrip s.
Proof.
  induction pad as [| c pad IH]; simpl; [done |].
  intros [Hc Hpad]%andb_true_iff. rewrite Hc. by apply IH.
Qed.

Lemma rstrip_app_blank (s pad : string) :
  blank pad = true → rstrip (s +:+ pad) = rstrip s.
Proof.
  intros Hpad. induction s as [| c s IH]; simpl.
  - by apply rstrip_blank.
  - by rewrite IH.
Qed.

Lemma strip_app_blank_r (s pad : string) :
  blank pad = true → strip (s +:+ pad) = strip s.
Proof.
  intros Hpad. unfold strip. induction s as [| c s IH]; simpl.
  - change ("" +:+ pad) with pad. by rewrite (lstrip_blank pad Hpad).
  - destruct (isspace c); [done |].
    by apply (rstrip_app_blank (String c s)).
Qed.

Lemma strip_padded (pad1 s pad2 : string) :
  blank pad1 = true → blank pad2 = true → strip (pad1 +:+ s +:+ pad2) = strip s.
Proof.
  intros H1 H2. unfold strip at 1. rewrite lstrip_app_blank by done.
  by apply strip_app_blank_r.
Qed.

End PySpec.

(** ** user_crud.py: normalization, frames and round trips *)

Module UserCrudMore.
Import UserCrud.

(** X1. A status that normalize_user_status returns is a fixed point: it
    normalizes to itself. *)
Theorem normalize_user_status_canonical (value : PyValue) (s : string) :
  normalize_user_status value = Some s →
  normalize_user_status (VStr s) = Some s.
Proof.
  intros H. apply UserCrudSpec.normalize_user_status_valid in H.
  destruct H as [-> | ->]; reflexivity.
Qed.

Lemma normalize_user_status_canonical_witness :
  normalize_user_status (VStr "Inactive") = Some "Inactive".
Proof.
  apply (normalize_user_status_canonical (VStr "  Disabled ") "Inactive").
  reflexivity.
Defined.

Lemma normalize_str_cases (s : string) :
  normalize_user_status (VStr s) =
    if bool_decide (strip (lower s) ∈ active_words) then Some "Active"
    else if bool_decide (strip (lower s) ∈ inactive_words) then Some "Inactive"
    else None.
Proof.
  rewrite UserCrudSpec.normalize_user_status_cases. simpl.
  by rewrite PySpec.lower_strip.
Qed.

(** X2. Two strings that differ only in letter case normalize to the same
    status. *)
Theorem normalize_user_status_ignores_case (s1 s2 : string) :
  lower s1 = lower s2 →
  normalize_user_status (VStr s1) = normalize_user_status (VStr s2).
Proof. intros H. by rewrite !normalize_str_cases, H. Qed.

Lemma normalize_user_status_ignores_case_witness :
  normalize_user_status (VStr "eNaBlEd") = normalize_user_status (VStr "ENABLED").
Proof.
  apply (normalize_user_status_ignores_case "eNaBlEd" "ENABLED"). reflexivity.
Defined.

(** X3. White space around a string does not change its status. *)
Theorem normalize_user_status_ignores_padding (pad1 s pad2 : string) :
  blank pad1 = true → blank pad2 = true →
  normalize_user_status (VStr (pad1 +:+ s +:+ pad2)) = normalize_user_status (VStr s).
Proof.
  intros H1 H2. rewrite !UserCrudSpec.normalize_user_status_cases. simpl.
  by rewrite PySpec.strip_padded.
Qed.

Lemma normalize_user_status_ignores_padding_witness :
  normalize_user_status (VStr (tab_newline +:+ "no" +:+ "  "))
  = normalize_user_status (VStr "no").
Proof.
  apply (normalize_user_status_ignores_padding tab_newline "no" "  ");
    reflexivity.
Defined.

(** Replacing the row a query found by one that satisfies the query keeps
    it the row found. *)
Lemma list_find_insert_same {A} (P : A → Prop) `{!∀ x, Decision (P x)}
    (l : list A) (i : nat) (x y : A) :
  list_find P l = Some (i, x) → P y → list_find P (<[i:=y]> l) = Some (i, y).
Proof.
  intros Hfind Hy. apply list_find_Some in Hfind as (Hi & Hx & Hbefore).
  apply list_find_Some. split; [| split; [done |]].
  - apply list_lookup_insert_eq. by eapply lookup_lt_Some.
  - intros j z Hj Hlt. rewrite list_lookup_insert_ne in Hj by lia.
    by eapply Hbefore.
Qed.

(** A column that an update of row [i] leaves alone is unchanged in the
    whole table. *)
Lemma fmap_insert_same {A} (f : User → A) (db : Session) (i : nat) (u u' : User) :
  db !! i = Some u → f u' = f u → f <$> <[i:=u']> db = f <$> db.
Proof.
  intros Hi Hf. rewrite list_fmap_insert, Hf.
  apply list_insert_id. by rewrite list_lookup_fmap, Hi.
Qed.

Section Crud.

Context {Salt : Type}.
Variable pwd_context_hash : Salt -> PyValue -> result string.
Variable pwd_context_verify : PyValue -> string -> result bool.
Variable next_user_id : Session -> Z.

#[local] Abbreviation create_user := (create_user pwd_context_hash next_user_id).
#[local] Abbreviation admin_update_user := (admin_update_user pwd_context_hash).
#[local] Abbreviation engineer_update_self := (engineer_update_self pwd_context_hash).
#[local] Abbreviation login_user := (login_user pwd_context_verify).

(** The row [engineer_update_self] writes back differs from the row it
    found in [full_name] and [password] at most. *)
Lemma engineer_update_self_row salt db id f p i user :
  find_user db id = Some (i, user) →
  ∃ user', snd (engineer_update_self salt db id f p) = <[i:=user']> db ∧
    user_id user' = user_id user ∧ username user' = username user ∧
    email user' = email user ∧ role user' = role user ∧
    status user' = status user.
Proof.
  intros Hfind. unfold UserCrud.engineer_update_self. rewrite Hfind.
  destruct (truthy f), (truthy p); simpl; unfold hash_password;
    try destruct (pwd_context_hash salt p); simpl; by eexists.
Qed.

(** X4. engineer_update_self never changes a user id, username, email,
    role or status of any row, whether it returns or raises, and leaves
    every row of another user as it was. *)
Theorem engineer_update_self_frame salt (db : Session) (id : Z) (f p : PyValue) :
  let db' := snd (engineer_update_self salt db id f p) in
  user_id <$> db' = user_id <$> db ∧
  username <$> db' = username <$> db ∧
  email <$> db' = email <$> db ∧
  role <$> db' = role <$> db ∧
  status <$> db' = status <$> db ∧
  (∀ j u, db !! j = Some u → user_id u ≠ id → db' !! j = Some u).
Proof.
  intros db'. subst db'.
  destruct (find_user db id) as [[i user] |] eqn:Hfind.
  - destruct (engineer_update_self_row salt db id f p i user Hfind)
      as (user' & -> & Hid & Hname & Hemail & Hrole & Hstatus).
    apply UserCrudSpec.find_user_Some in Hfind as [Hi Huid].
    repeat (split; [by eapply fmap_insert_same |]).
    intros j u Hj Hne. rewrite list_lookup_insert_ne; [done |].
    intros <-. congruence.
  - unfold UserCrud.engineer_update_self. rewrite Hfind. simpl.
    repeat (split; [done |]). done.
Qed.

(** X5. With an empty or missing full name and an empty or missing
    password, engineer_update_self changes nothing and returns the user as
    stored. *)
Theorem engineer_update_self_nothing salt (db : Session) (id : Z) (f p : PyValue) :
  truthy f = false → truthy p = false →
  engineer_update_self salt db id f p = (Return (get_user_by_id db id), db).
Proof.
  intros Hf Hp. unfold UserCrud.engineer_update_self, get_user_by_id.
  destruct (find_user db id) as [[i user] |] eqn:Hfind; [| done].
  rewrite Hf, Hp. simpl.
  apply UserCrudSpec.find_user_Some in Hfind as [Hi _].
  by rewrite (list_insert_id _ _ _ Hi).
Qed.

(** X6. admin_update_user looks the user up before it reads the updates:
    for an id that no user has it returns None and changes nothing, also
    when the updates hold a status it would reject; and with no updates it
    returns the user and changes nothing. *)
Theorem admin_update_user_nothing salt (db : Session) (id : Z)
    (updates : gmap string PyValue) :
  (get_user_by_id db id = None →
     admin_update_user salt db id updates = (Return None, db)) ∧
  admin_update_user salt db id ∅ = (Return (get_user_by_id db id), db).
Proof.
  unfold UserCrud.admin_update_user, get_user_by_id, assign_if_present.
  destruct (find_user db id) as [[i user] |] eqn:Hfind; simpl.
  - split; [discriminate |]. rewrite !lookup_empty. simpl.
    apply UserCrudSpec.find_user_Some in Hfind as [Hi _].
    by rewrite (list_insert_id _ _ _ Hi).
  - done.
Qed.

Lemma get_user_by_id_snoc (db : Session) (user : User) (id : Z) :
  get_user_by_id (db ++ [user]) id =
    match get_user_by_id db id with
    | Some u => Some u
    | None => if decide (user_id user = id) then Some user else None
    end.
Proof.
  unfold get_user_by_id, find_user.
  destruct (list_find (λ u, user_id u = id) db) as [[i u] |] eqn:Hfind.
  - by rewrite (list_find_app_l _ _ _ _ _ Hfind).
  - rewrite (list_find_app_r _ _ _ Hfind). simpl.
    by destruct (decide (user_id user = id)).
Qed.

(** X7. After create_user returned a user, get_user_by_id finds every user
    it found before, finds the new user under the id the database gave it
    when no row had that id, and finds nothing under any other id. *)
Theorem create_user_lookup salt (db db' : Session) (u f p r : PyValue)
    (user : User) (id : Z) :
  create_user salt db u f p r = (Return user, db') →
  get_user_by_id db' id =
    match get_user_by_id db id with
    | Some old => Some old
    | None => if decide (id = next_user_id db) then Some user else None
    end.
Proof.
  unfold UserCrud.create_user, hash_password.
  destruct (pwd_context_hash salt p); [| discriminate].
  intros [= <- <-]. rewrite get_user_by_id_snoc. simpl.
  destruct (get_user_by_id db id); [done |].
  by repeat case_decide.
Qed.

(** X8. login_user returns a user only if that user is stored under the
    name given, is "Active", and verify_password accepted the password. *)
Theorem login_user_sound (db : Session) (name pw : PyValue) (user : User)
    (msg : string) :
  login_user db name pw = Return (Some user, msg) →
  user ∈ db ∧ get_user_by_username db name = Some user ∧
  username user = name ∧ status user = "Active" ∧
  pwd_context_verify pw (password user) = Return true ∧
  msg = "Login successful".
Proof.
  unfold UserCrud.login_user, get_user_by_username, verify_password.
  destruct (list_find _ db) as [[i u] |] eqn:Hfind; [| discriminate]. simpl.
  destruct (String.eqb (status u) "Active") eqn:Hs; simpl; [| discriminate].
  destruct (pwd_context_verify pw (password u)) as [[] |] eqn:Hv; simpl;
    try discriminate.
  intros [= <- <-]. apply list_find_Some in Hfind as (Hi & Hn & _).
  apply String.eqb_eq in Hs.
  repeat split; try done. apply list_elem_of_lookup. eauto.
Qed.

(** X9. Once deactivate_user has deactivated the user a name belongs to,
    login_user refuses that name with "Account inactive", whatever the
    password; user ids are taken to be unique. *)
Theorem deactivated_user_cannot_login (db : Session) (name pw : PyValue)
    (user : User) :
  NoDup (user_id <$> db) →
  get_user_by_username db name = Some user →
  login_user (snd (deactivate_user db (user_id user))) name pw
  = Return (None, "Account inactive").
Proof.
  intros Hkey Hname. unfold get_user_by_username in Hname.
  destruct (list_find (λ u, username u = name) db) as [[i u] |] eqn:Hfind;
    [| discriminate].
  injection Hname as ->.
  pose proof Hfind as (Hi & Hn & _)%list_find_Some.
  assert (Hid : find_user db (user_id user) = Some (i, user)).
  { unfold find_user. apply list_find_Some. split; [done |]. split; [done |].
    intros j y Hj Hlt Hy.
    assert (i = j); [| lia].
    eapply (NoDup_lookup _ _ _ (user_id user) Hkey);
      rewrite list_lookup_fmap; [by rewrite Hi | by rewrite Hj, <- Hy]. }
  unfold deactivate_user. rewrite Hid. simpl.
  unfold UserCrud.login_user.
  rewrite (list_find_insert_same _ _ _ _ (set_status "Inactive" user) Hfind Hn).
  reflexivity.
Qed.

(** X10. A user that create_user returned under a name no row had can log
    in with the password given, provided verify accepts the hash that hash
    returned for it. *)
Theorem created_user_can_login salt (db db' : Session) (name f p r : PyValue)
    (user : User) :
  create_user salt db name f p r = (Return user, db') →
  get_user_by_username db name = None →
  pwd_context_verify p (password user) = Return true →
  login_user db' name p = Return (Some user, "Login successful").
Proof.
  unfold UserCrud.create_user, hash_password, get_user_by_username.
  destruct (pwd_context_hash salt p) as [h |]; [| discriminate].
  intros [= <- <-] Hnone Hverify. simpl in Hverify.
  destruct (list_find (λ u, username u = name) db) eqn:Hfind; [discriminate |].
  unfold UserCrud.login_user.
  rewrite (list_find_app_r _ _ _ Hfind). simpl.
  rewrite decide_True by done. simpl.
  unfold verify_password. simpl. by rewrite Hverify.
Qed.

(** X11. Deactivating an active user and then updating the status to any
    spelling of "Active" gives back the database as it was. *)
Theorem reactivate_after_deactivate salt (db : Session) (id : Z) (user : User)
    (spelling : PyValue) :
  get_user_by_id db id = Some user →
  status user = "Active" →
  normalize_user_status spelling = Some "Active" →
  admin_update_user salt (snd (deactivate_user db id)) id {[ "status" := spelling ]}
  = (Return (Some user), db).
Proof.
  unfold get_user_by_id. intros Huser Hactive Hnorm.
  destruct (find_user db id) as [[i u] |] eqn:Hfind; [| discriminate].
  injection Huser as ->.
  unfold deactivate_user. rewrite Hfind. simpl.
  unfold UserCrud.admin_update_user.
  rewrite (UserCrudSpec.find_user_insert db id i user
             (set_status "Inactive" user) Hfind eq_refl).
  unfold assign_if_present.
  rewrite (lookup_singleton_ne "status" "full_name") by done.
  rewrite (lookup_singleton_ne "status" "username") by done.
  rewrite (lookup_singleton_ne "status" "role") by done.
  rewrite (lookup_singleton_ne "status" "password") by done.
  rewrite lookup_singleton_eq, Hnorm.
  simpl. rewrite list_insert_insert_eq.
  apply UserCrudSpec.find_user_Some in Hfind as [Hi _].
  assert (Hsame : set_status "Active" (set_status "Inactive" user) = user)
    by (destruct user; simpl in *; by subst).
  rewrite Hsame. by rewrite (list_insert_id _ _ _ Hi).
Qed.

End Crud.

Lemma engineer_update_self_nothing_witness :
  engineer_update_self sample_hash "s1" [sample_user] 1 (VStr "") VNone
  = (Return (Some sample_user), [sample_user]).
Proof.
  apply (engineer_update_self_nothing sample_hash "s1" [sample_user] 1
           (VStr "") VNone); reflexivity.
Defined.

Lemma admin_update_user_nothing_witness :
  admin_update_user sample_hash "s1" [sample_user] 7 {[ "status" := VStr "bogus" ]}
  = (Return None, [sample_user]).
Proof.
  apply (proj1 (admin_update_user_nothing sample_hash "s1" [sample_user] 7
                  {[ "status" := VStr "bogus" ]})).
  reflexivity.
Defined.

Lemma create_user_lookup_witness :
  get_user_by_id [sample_user; created] 2 = Some created.
Proof.
  apply (create_user_lookup sample_hash next_id "s1" [sample_user]
           [sample_user; created] (VStr "siti") (VStr "Siti") (VStr "Secret123")
           (VStr "Engineer") created 2).
  reflexivity.
Defined.

Lemma login_user_sound_witness :
  status created = "Active" ∧
  sample_verify (VStr "Secret123") (password created) = Return true.
Proof.
  destruct (login_user_sound sample_verify [sample_user; created] (VStr "siti")
              (VStr "Secret123") created "Login successful")
    as (_ & _ & _ & Hs & Hv & _).
  - reflexivity.
  - split; [exact Hs | exact Hv].
Defined.

Lemma deactivated_user_cannot_login_witness :
  login_user sample_verify (snd (deactivate_user [sample_user] 1)) (VStr "amin")
    (VStr "stored")
  = Return (None, "Account inactive").
Proof.
  apply (deactivated_user_cannot_login sample_verify [sample_user] (VStr "amin")
           (VStr "stored") sample_user).
  - apply NoDup_singleton.
  - reflexivity.
Defined.

Lemma created_user_can_login_witness :
  login_user sample_verify [sample_user; created] (VStr "siti") (VStr "Secret123")
  = Return (Some created, "Login successful").
Proof.
  apply (created_user_can_login sample_hash sample_verify next_id "s1"
           [sample_user] [sample_user; created] (VStr "siti") (VStr "Siti")
           (VStr "Secret123") (VStr "Engineer") created); reflexivity.
Defined.

Lemma reactivate_after_deactivate_witness :
  admin_update_user sample_hash "s1" (snd (deactivate_user [sample_user] 1)) 1
    {[ "status" := VStr " ENABLED " ]}
  = (Return (Some sample_user), [sample_user]).
Proof.
  apply (reactivate_after_deactivate sample_hash "s1" [sample_user] 1 sample_user
           (VStr " ENABLED ")); reflexivity.
Defined.

End UserCrudMore.

(** ** views/user_management.py: refresh, buttons and filters *)

Module UserManagementMore.
Import UserManagement.

Lemma load_users_bar_in_step (v : View) (us : list UserDict) (total pages : Z) :
  is_Some (bar v) → bar_in_step (load_users v us total pages).
Proof.
  intros [b0 Hb0] b. unfold load_users, _update_pagination_display. simpl.
  rewrite Hb0. simpl. by intros [= <-].
Qed.

Lemma refresh_users_bar_in_step (controller : Controller) (v : View) :
  is_Some (bar v) → (∀ q, success (controller q) = true) →
  bar_in_step (_refresh_users controller v).
Proof.
  intros Hbar Hc. unfold _refresh_users. rewrite Hc.
  by apply load_users_bar_in_step.
Qed.

Lemma refresh_users_bar_is_Some (controller : Controller) (v : View) :
  is_Some (bar v) → is_Some (bar (_refresh_users controller v)).
Proof.
  intros [b Hb]. unfold _refresh_users, load_users, _update_pagination_display.
  destruct (success _); simpl; rewrite Hb; by eexists.
Qed.

Lemma click_bar_in_step (v : View) (c : Click) :
  is_Some (bar v) → (∀ q, success (controller_of c q) = true) →
  bar_in_step v →
  is_Some (bar (click v c)) ∧ bar_in_step (click v c).
Proof.
  intros Hbar Hc Hv. destruct c as [controller | controller]; simpl in *.
  - unfold _prev_page. destruct (1 <? current_page v); [| done].
    split; [by apply refresh_users_bar_is_Some | by apply refresh_users_bar_in_step].
  - unfold _next_page. destruct (current_page v <? total_pages v); [| done].
    split; [by apply refresh_users_bar_is_Some | by apply refresh_users_bar_in_step].
Qed.

(** X12. While every refresh succeeds, the pagination bar stays in step
    with the view through any sequence of Previous and Next clicks: the
    label shows the current page and the page count, and a button is
    disabled exactly when its click would do nothing. *)
Theorem bar_stays_in_step (v : View) (cs : list Click) :
  is_Some (bar v) → bar_in_step v →
  Forall (λ c, ∀ q, success (controller_of c q) = true) cs →
  bar_in_step (clicks cs v) ∧
  (∀ b controller, bar (clicks cs v) = Some b →
     (next_btn b = false → _next_page controller (clicks cs v) = clicks cs v) ∧
     (prev_btn b = false → _prev_page controller (clicks cs v) = clicks cs v)).
Proof.
  intros Hbar Hv Hcs.
  assert (Hstep : is_Some (bar (clicks cs v)) ∧ bar_in_step (clicks cs v)).
  { revert v Hbar Hv. induction Hcs as [| c cs Hc _ IH]; intros v Hbar Hv; [done |].
    destruct (click_bar_in_step v c Hbar Hc Hv) as [Hbar' Hv'].
    by apply IH. }
  destruct Hstep as [_ Hstep]. split; [done |].
  intros b controller Hb. destruct (Hstep b Hb) as (_ & Hprev & Hnext).
  split; intros Hoff.
  - unfold _next_page. by rewrite <- Hnext, Hoff.
  - unfold _prev_page. by rewrite <- Hprev, Hoff.
Qed.

(** X13. A Next click whose refresh fails still moves the page number on,
    and leaves the table, the bar with its page label, and the page count
    as they were. *)
Theorem next_page_failed_refresh (controller : Controller) (v : View) :
  (∀ q, success (controller q) = false) →
  current_page v < total_pages v →
  let v' := _next_page controller v in
  current_page v' = current_page v + 1 ∧
  bar v' = bar v ∧ table_body v' = table_body v ∧ user_rows v' = user_rows v ∧
  total_pages v' = total_pages v ∧ total_users v' = total_users v.
Proof.
  intros Hc Hlt. unfold _next_page, _refresh_users.
  rewrite (proj2 (Z.ltb_lt _ _) Hlt), Hc. done.
Qed.

(** X14. Applying the filters, and clearing them, goes back to page 1
    whatever the controller answers; "All" in a combo box means no filter,
    and clearing leaves no filter and an empty search. *)
Theorem filters_reset_page (controller : Controller) (filters : FilterBar) (v : View) :
  let applied := _apply_filters controller filters v in
  let cleared := snd (_clear_filters controller v) in
  current_page applied = 1 ∧
  current_status_filter applied = filter_of (status_filter_var filters) ∧
  current_role_filter applied = filter_of (role_filter_var filters) ∧
  current_search applied = strip (search_entry filters) ∧
  filter_of "All" = None ∧
  current_page cleared = 1 ∧
  current_status_filter cleared = None ∧ current_role_filter cleared = None ∧
  current_search cleared = "".
Proof.
  unfold _clear_filters, _apply_filters, _refresh_users, load_users,
    _update_pagination_display. simpl.
  repeat (destruct (success _)); simpl; destruct (bar v); done.
Qed.

Lemma bar_stays_in_step_witness :
  bar_in_step (clicks [Next steady; Prev steady] (load_users shown_page_3 two_users 60 3)).
Proof.
  apply (bar_stays_in_step (load_users shown_page_3 two_users 60 3)
           [Next steady; Prev steady]).
  - by eexists.
  - apply load_users_bar_in_step. by eexists.
  - repeat constructor.
Defined.

Lemma next_page_failed_refresh_witness :
  current_page (_next_page offline two_pages) = 2 ∧
  bar (_next_page offline two_pages) = bar two_pages.
Proof.
  destruct (next_page_failed_refresh offline two_pages) as (Hp & Hb & _).
  - reflexivity.
  - reflexivity.
  - split; [exact Hp | exact Hb].
Defined.

End UserManagementMore.

(** ** managers/state_manager.py: selection and equipment data *)

Module StateManagerMore.
Import StateManager.

Section State.

Context {Equipment TextBox : Type}.

Abbreviation St := (@ViewState Equipment TextBox).

Lemma add_file_prefix (file_path : string) (s : St) :
  selected_files s `prefix_of` selected_files (add_file file_path s).
Proof.
  rewrite StateManagerSpec.add_file_selected. case_bool_decide; [done |].
  by apply prefix_app_r.
Qed.

Lemma add_file_elem (file_path p : string) (s : St) :
  p ∈ selected_files (add_file file_path s) ↔ p ∈ selected_files s ∨ p = file_path.
Proof.
  rewrite StateManagerSpec.add_file_selected. case_bool_decide.
  - split; [by left |]. intros [? | ->]; done.
  - rewrite elem_of_app, list_elem_of_singleton. done.
Qed.

(** X15. Adding paths one after the other keeps the files already selected
    in place at the front, and afterwards a path is selected exactly when
    it was selected before or is one of the paths added. *)
Theorem add_files_selected (paths : list string) (s : St) :
  selected_files s `prefix_of` selected_files (add_files paths s) ∧
  (∀ p, p ∈ selected_files (add_files paths s) ↔ p ∈ selected_files s ∨ p ∈ paths).
Proof.
  unfold add_files. revert s.
  induction paths as [| file_path paths IH]; intros s; simpl.
  - split; [done |]. intros p. rewrite elem_of_nil. tauto.
  - destruct (IH (add_file file_path s)) as [Hprefix Helem]. split.
    + etrans; [apply add_file_prefix | exact Hprefix].
    + intros p. rewrite Helem, add_file_elem, elem_of_cons. tauto.
Qed.

(** X16. Equipment data stored for a file is what get_equipment_for_file
    returns for it; the data of every other file stays as it was; a file
    without data gives the empty dictionary; and storing data leaves the
    file selection alone. *)
Theorem equipment_data_round_trip (file_path other : string)
    (equipment_list : gmap string Equipment) (s : St) :
  get_equipment_for_file file_path (set_equipment_data file_path equipment_list s)
    = equipment_list ∧
  (other ≠ file_path →
     get_equipment_for_file other (set_equipment_data file_path equipment_list s)
       = get_equipment_for_file other s) ∧
  (extracted_equipment_data s !! other = None →
     get_equipment_for_file other s = ∅) ∧
  selected_files (set_equipment_data file_path equipment_list s) = selected_files s.
Proof.
  unfold get_equipment_for_file, set_equipment_data. simpl.
  split; [by rewrite lookup_insert_eq |].
  split; [intros Hne; by rewrite lookup_insert_ne |].
  split; [by intros -> | done].
Qed.

(** X17. Page 2 can be reached exactly when the extraction is complete and
    a file is selected: never after clear_files, and after add_file as
    soon as the extraction is complete.  Neither call changes the
    extraction flag or the equipment data. *)
Theorem page_2_gate (file_path : string) (s : St) :
  (can_proceed_to_page_2 s = true ↔
     extraction_complete s = true ∧ selected_files s ≠ []) ∧
  can_proceed_to_page_2 (clear_files s) = false ∧
  can_proceed_to_page_2 (add_file file_path s) = extraction_complete s ∧
  extraction_complete (add_file file_path s) = extraction_complete s ∧
  extraction_complete (clear_files s) = extraction_complete s ∧
  can_save (add_file file_path s) = can_save s ∧
  can_save (clear_files s) = can_save s.
Proof.
  unfold can_proceed_to_page_2.
  split; [by rewrite andb_true_iff, StateManagerSpec.has_files_nonempty |].
  split; [by rewrite andb_false_r |].
  assert (Hframe : extraction_complete (add_file file_path s) = extraction_complete s
                   ∧ can_save (add_file file_path s) = can_save s)
    by (unfold add_file; by case_bool_decide).
  destruct Hframe as [Hflag Hsave].
  assert (Hhas : has_files (add_file file_path s) = true).
  { apply StateManagerSpec.has_files_nonempty.
    intros Hnil. assert (Hin : file_path ∈ selected_files (add_file file_path s))
      by (apply add_file_elem; by right).
    rewrite Hnil in Hin. by apply elem_of_nil in Hin. }
  rewrite Hflag, Hhas, andb_true_r. done.
Qed.

End State.

Lemma equipment_data_round_trip_witness :
  get_equipment_for_file "b.pdf"
    (set_equipment_data (Equipment := Z) (TextBox := unit) "a.pdf" {[ "V-101" := 1 ]}
       default_state)
  = get_equipment_for_file "b.pdf" (default_state (Equipment := Z) (TextBox := unit)).
Proof.
  apply (proj1 (proj2 (equipment_data_round_trip (Equipment := Z) (TextBox := unit)
                         "a.pdf" "b.pdf" {[ "V-101" := 1 ]} default_state))).
  discriminate.
Defined.

Example add_files_keeps_order :
  selected_files (add_files (Equipment := unit) (TextBox := unit)
                    ["b.pdf"; "a.pdf"; "b.pdf"; "c.pdf"] (add_file "a.pdf" default_state))
  = ["a.pdf"; "b.pdf"; "c.pdf"].
Proof. reflexivity. Qed.

End StateManagerMore.

(** ** services/excel_validator.py and services/file_service.py *)

Module ExcelValidatorMore.
Import ExcelValidator.

Lemma is_excel_name_lower (fname : string) :
  is_excel_name (lower fname) = is_excel_name fname.
Proof. unfold is_excel_name. by rewrite PySpec.lower_idemp. Qed.

Section Validator.

Context {Mtime Component : Type}.
Variable os_path_join : string -> string -> string.
Variable os_path_isdir : string -> bool.
Variable os_listdir : string -> result (list string).
Variable os_path_getmtime : string -> result Mtime.
Variable read_masterfile : string -> result (list (string * list Component)).
Variable get_existing_data_value : Component -> string -> result PyValue.

#[local] Abbreviation _find_excel_file :=
  (_find_excel_file os_path_join os_path_isdir os_listdir).
#[local] Abbreviation filled_count := (filled_count get_existing_data_value).
#[local] Abbreviation _has_completed_work :=
  (_has_completed_work get_existing_data_value).
#[local] Abbreviation collect_work := (collect_work get_existing_data_value).
#[local] Abbreviation _get_equipment_with_work :=
  (_get_equipment_with_work read_masterfile get_existing_data_value).
#[local] Abbreviation get_excel_file_info :=
  (get_excel_file_info os_path_join os_path_isdir os_listdir os_path_getmtime
     read_masterfile get_existing_data_value).

(** X18. When _find_excel_file returns a path, it is a name of the
    directory listing joined to the directory, the name ends in .xlsx or
    .xls whatever its letter case, and no earlier name of the listing
    does; it returns None for what is not a directory and for a directory
    with no such name. *)
Theorem find_excel_file_result (directory : string) :
  (∀ path, _find_excel_file directory = Return (Some path) →
     os_path_isdir directory = true ∧
     ∃ names i fname,
       os_listdir directory = Return names ∧ names !! i = Some fname ∧
       path = os_path_join directory fname ∧
       is_excel_name fname = true ∧ is_excel_name (lower fname) = true ∧
       ∀ j other, names !! j = Some other → (j < i)%nat → is_excel_name other = false) ∧
  (os_path_isdir directory = false → _find_excel_file directory = Return None) ∧
  (∀ names, os_path_isdir directory = true → os_listdir directory = Return names →
     Forall (λ fname, is_excel_name fname = false) names →
     _find_excel_file directory = Return None).
Proof.
  unfold ExcelValidator._find_excel_file. split; [| split].
  - intros path. destruct (os_path_isdir directory); simpl; [| discriminate].
    destruct (os_listdir directory) as [names |]; simpl; [| discriminate].
    destruct (list_find _ names) as [[i fname] |] eqn:Hfind; [| discriminate].
    intros [= <-]. split; [done |].
    apply list_find_Some in Hfind as (Hi & Hname & Hbefore).
    exists names, i, fname. rewrite is_excel_name_lower.
    repeat (split; [done |]).
    intros j other Hj Hlt. specialize (Hbefore j other Hj Hlt).
    by destruct (is_excel_name other).
  - by intros ->.
  - intros names -> -> Hnone. simpl.
    assert (Hfind : list_find (λ fname, is_excel_name fname = true) names = None).
    { apply list_find_None. eapply Forall_impl; [exact Hnone |].
      intros fname ->. discriminate. }
    by rewrite Hfind.
Qed.

Lemma filled_count_total (value : Component → string → PyValue)
    (component : Component) (fields : list string) :
  (∀ c field, get_existing_data_value c field = Return (value c field)) →
  filled_count component fields =
    Return (length (filter (λ field, truthy (value component field) = true) fields)).
Proof.
  intros Hget. induction fields as [| field fields IH]; simpl; [done |].
  rewrite Hget, IH. simpl. rewrite filter_cons.
  destruct (truthy (value component field)); by case_decide.
Qed.

(** X19. When reading a field never raises, an equipment has completed
    work exactly when one of its components has at least two of the four
    critical fields (fluid, type, spec, grade) filled; an equipment without
    components has none. *)
Theorem has_completed_work_iff (value : Component → string → PyValue)
    (components : list Component) :
  (∀ c field, get_existing_data_value c field = Return (value c field)) →
  (∃ done_, _has_completed_work components = Return done_ ∧
     (done_ = true ↔ ∃ c, c ∈ components ∧ (2 ≤ filled value c)%nat)) ∧
  _has_completed_work [] = Return false.
Proof.
  intros Hget. split; [| done].
  induction components as [| c components IH].
  - exists false. split; [done |]. split; [discriminate |].
    intros (c & Hc & _). by apply elem_of_nil in Hc.
  - change (_has_completed_work (c :: components))
      with (bind (filled_count c critical_fields)
              (λ n, if (2 <=? n)%nat then Return true
                    else _has_completed_work components)).
    rewrite (filled_count_total value c critical_fields Hget).
    fold (filled value c). unfold bind.
    destruct (2 <=? filled value c)%nat eqn:Hcount.
    + exists true. split; [done |]. split; [| done]. intros _.
      exists c. split; [by left |]. by apply Nat.leb_le.
    + destruct IH as (done_ & -> & Hiff). exists done_. split; [done |].
      rewrite Hiff. apply Nat.leb_gt in Hcount. split.
      * intros (c' & Hc' & Hn). exists c'. split; [by right | done].
      * intros (c' & [-> | Hc']%elem_of_cons & Hn); [lia |]. by exists c'.
Qed.

Lemma collect_work_sound (items : list (string * list Component)) (acc : gset string)
    (number : string) :
  number ∈ collect_work items acc →
  number ∈ acc ∨
  ∃ equipment, (number, equipment) ∈ items ∧
    _has_completed_work equipment = Return true.
Proof.
  revert acc. induction items as [| [eq_no equipment] items IH]; intros acc; simpl.
  - by left.
  - destruct (_has_completed_work equipment) as [[] |] eqn:Hwork.
    + intros [[->%elem_of_singleton | Hacc]%elem_of_union | (e & He & Hw)]%IH.
      * right. exists equipment. split; [by left | done].
      * by left.
      * right. exists e. split; [by right | done].
    + intros [Hacc | (e & He & Hw)]%IH; [by left |].
      right. exists e. split; [by right | done].
    + by left.
Qed.

Lemma collect_work_mono (items : list (string * list Component)) (acc : gset string) :
  acc ⊆ collect_work items acc.
Proof.
  revert acc. induction items as [| [eq_no equipment] items IH]; intros acc; simpl.
  - done.
  - destruct (_has_completed_work equipment) as [[] |]; [| apply IH | done].
    etrans; [| apply IH]. apply union_subseteq_r.
Qed.

Lemma collect_work_complete (items : list (string * list Component)) (acc : gset string)
    (number : string) (equipment : list Component) :
  Forall (λ item, ∃ b, _has_completed_work item.2 = Return b) items →
  (number, equipment) ∈ items →
  _has_completed_work equipment = Return true →
  number ∈ collect_work items acc.
Proof.
  intros Hall. revert acc.
  induction Hall as [| [eq_no e] items [b Hb] _ IH]; intros acc Hin Hwork.
  - by apply elem_of_nil in Hin.
  - simpl in *. rewrite Hb. apply elem_of_cons in Hin as [[= <- <-] | Hin].
    + rewrite Hwork in Hb. injection Hb as <-.
      apply collect_work_mono. apply elem_of_union. left. by apply elem_of_singleton.
    + destruct b; by apply IH.
Qed.

(** X20. Every equipment number that _get_equipment_with_work returns is a
    key of the workbook whose equipment has completed work, and when the
    workbook cannot be read the set is empty; when no equipment of the
    workbook makes the check raise, every such key is returned. *)
Theorem equipment_with_work_sound (excel_path : string) :
  (∀ number, number ∈ _get_equipment_with_work excel_path →
     ∃ items equipment,
       read_masterfile excel_path = Return items ∧
       (number, equipment) ∈ items ∧
       _has_completed_work equipment = Return true) ∧
  (∀ e, read_masterfile excel_path = Raise e →
     _get_equipment_with_work excel_path = ∅) ∧
  (∀ items number equipment,
     read_masterfile excel_path = Return items →
     Forall (λ item, ∃ b, _has_completed_work item.2 = Return b) items →
     (number, equipment) ∈ items →
     _has_completed_work equipment = Return true →
     number ∈ _get_equipment_with_work excel_path).
Proof.
  unfold ExcelValidator._get_equipment_with_work. split; [| split].
  - intros number. destruct (read_masterfile excel_path) as [items |];
      [| by intros ?%elem_of_empty].
    intros [Hempty | (equipment & Hin & Hwork)]%collect_work_sound;
      [by apply elem_of_empty in Hempty |].
    by exists items, equipment.
  - by intros e ->.
  - intros items number equipment -> Hall Hin Hwork.
    by eapply collect_work_complete.
Qed.

(** X21. In every record get_excel_file_info returns, has_work_done is True
    exactly when equipment_with_work is not empty; the path and the
    modification time are missing exactly for NOT_FOUND; and for UPDATED
    the set is the one read from the file at that path. *)
Theorem excel_file_info_consistent (project_root work_id : string) (info : ExcelFileInfo) :
  get_excel_file_info project_root work_id = Return info →
  (has_work_done info = true ↔ equipment_with_work info ≠ ∅) ∧
  (file_type info = NOT_FOUND ↔ file_path info = None) ∧
  (file_path info = None ↔ last_modified info = None) ∧
  (file_type info = UPDATED →
     ∃ path, file_path info = Some path ∧
       equipment_with_work info = _get_equipment_with_work path).
Proof.
  unfold ExcelValidator.get_excel_file_info. intros H.
  destruct (ExcelValidator._find_excel_file _ _ _ _) as [[updated_file |] |];
    simpl in H; [| | discriminate].
  - destruct (os_path_getmtime updated_file); simpl in H; [| discriminate].
    injection H as <-. simpl. split; [| split; [| split]]; try done.
    + rewrite bool_decide_eq_true. split.
      * intros Hsize Hempty. rewrite Hempty, size_empty in Hsize. lia.
      * intros Hne. destruct (size _) eqn:Hsize; [| lia].
        apply size_empty_inv in Hsize. by apply leibniz_equiv in Hsize.
    + by eexists.
  - destruct (ExcelValidator._find_excel_file _ _ _ _) as [[default_file |] |];
      simpl in H; [| | discriminate].
    + destruct (os_path_getmtime default_file); simpl in H; [| discriminate].
      injection H as <-. simpl. split; [| split; [| split]]; done.
    + injection H as <-. simpl. split; [| split; [| split]]; done.
Qed.

#[local] Abbreviation get_work_excel_path :=
  (FileService.get_work_excel_path os_path_join os_path_isdir os_listdir).

Lemma first_excel_in_find (directory : string) (found : option string) :
  _find_excel_file directory = Return found →
  FileService.first_excel_in os_path_join os_path_isdir os_listdir directory
    = Return found.
Proof.
  unfold ExcelValidator._find_excel_file, FileService.first_excel_in, is_excel_name.
  destruct (os_path_isdir directory); simpl; [| done].
  destruct (os_listdir directory) as [names |]; simpl; [| done].
  by destruct (list_find _ names) as [[i fname] |].
Qed.

(** X22. FileService.get_work_excel_path and ExcelValidator agree: whenever
    get_excel_file_info returns a record for a work, get_work_excel_path
    returns the path of that record, the file of the updated folder before
    the one of the default folder, and None when there is neither. *)
Theorem work_excel_path_agrees (project_root work_id : string) (info : ExcelFileInfo) :
  get_excel_file_info project_root work_id = Return info →
  get_work_excel_path work_id project_root = file_path info.
Proof.
  unfold ExcelValidator.get_excel_file_info, FileService.get_work_excel_path,
    FileService.work_excel_dir, try_except.
  cbv zeta. intros H.
  destruct (ExcelValidator._find_excel_file _ _ _ _) as [[updated_file |] |] eqn:Hup;
    simpl in H; [| | discriminate].
  - rewrite (first_excel_in_find _ _ Hup). simpl.
    destruct (os_path_getmtime updated_file); simpl in H; [| discriminate].
    by injection H as <-.
  - rewrite (first_excel_in_find _ _ Hup). unfold bind at 1. clear Hup.
    destruct (ExcelValidator._find_excel_file _ _ _ _) as [[default_file |] |] eqn:Hdef;
      simpl in H; [| | discriminate].
    + rewrite (first_excel_in_find _ _ Hdef).
      destruct (os_path_getmtime default_file); simpl in H; [| discriminate].
      by injection H as <-.
    + rewrite (first_excel_in_find _ _ Hdef). by injection H as <-.
Qed.

End Validator.

Lemma find_excel_file_result_witness :
  _find_excel_file posix_join sample_isdir sample_listdir "/nowhere" = Return None.
Proof.
  apply (proj1 (proj2 (find_excel_file_result posix_join sample_isdir
                         sample_listdir "/nowhere"))).
  reflexivity.
Defined.

Lemma equipment_with_work_sound_witness :
  _get_equipment_with_work (Component := unit)
    (λ _, Raise (OtherError "BadZipFile" "File is not a zip file"))
    (λ _ _, Return VNone) "m.xlsx" = ∅.
Proof.
  apply (proj1 (proj2 (equipment_with_work_sound (Component := unit)
                         (λ _, Raise (OtherError "BadZipFile" "File is not a zip file"))
                         (λ _ _, Return VNone) "m.xlsx"))
           (OtherError "BadZipFile" "File is not a zip file")).
  reflexivity.
Defined.

Lemma has_completed_work_iff_witness :
  ∃ done_,
    _has_completed_work (λ c field, Return (dict_value c field)) [∅; sample_component]
      = Return done_ ∧
    (done_ = true ↔
       ∃ c, c ∈ [∅; sample_component] ∧ (2 ≤ filled dict_value c)%nat).
Proof.
  apply (has_completed_work_iff (λ c field, Return (dict_value c field)) dict_value
           [∅; sample_component]).
  reflexivity.
Defined.

Lemma excel_file_info_consistent_witness :
  file_type
    (mkInfo DEFAULT (Some "/proj/src/output_files/W1/excel/default/Masterfile.XLSX")
       false ∅ (Some 1700000000)) = NOT_FOUND ↔
  file_path
    (mkInfo DEFAULT (Some "/proj/src/output_files/W1/excel/default/Masterfile.XLSX")
       false ∅ (Some 1700000000)) = None.
Proof.
  apply (excel_file_info_consistent (Component := unit) posix_join sample_isdir
           sample_listdir (λ _, Return 1700000000) (λ _, Return [])
           (λ _ _, Return VNone) "/proj" "W1").
  reflexivity.
Defined.

Lemma work_excel_path_agrees_witness :
  FileService.get_work_excel_path posix_join sample_isdir sample_listdir "W1" "/proj"
  = Some "/proj/src/output_files/W1/excel/default/Masterfile.XLSX".
Proof.
  apply (work_excel_path_agrees (Component := unit) posix_join sample_isdir
           sample_listdir (λ _, Return 1700000000) (λ _, Return [])
           (λ _ _, Return VNone) "/proj" "W1"
           (mkInfo DEFAULT
              (Some "/proj/src/output_files/W1/excel/default/Masterfile.XLSX")
              false ∅ (Some 1700000000))).
  reflexivity.
Defined.

End ExcelValidatorMore.

(** ** services/database_service.py *)

Module DatabaseServiceMore.
Import DatabaseService.

Section Batch.

Context {Db Equipment : Type}.
Variable create_equipment :
  Db -> Z -> string -> PyValue -> PyValue -> result Equipment * Db.
Variable update_drawing_path : Db -> Equipment -> PyValue -> result unit * Db.

#[local] Abbreviation save_one := (save_one create_equipment update_drawing_path).
#[local] Abbreviation batch_loop := (batch_loop create_equipment update_drawing_path).
#[local] Abbreviation batch_save_equipment :=
  (batch_save_equipment create_equipment update_drawing_path).

Lemma batch_loop_counts db work_id items drawing_paths (success failures : nat) :
  let counts := fst (batch_loop db work_id items drawing_paths success failures) in
  (fst counts + snd counts = success + failures + length items)%nat ∧
  (success ≤ fst counts)%nat ∧ (failures ≤ snd counts)%nat.
Proof.
  revert db success failures.
  induction items as [| [eq_no data] items IH]; intros db success failures; simpl.
  - lia.
  - destruct (save_one db work_id eq_no data drawing_paths) as [[] db'].
    + specialize (IH db' (S success) failures). simpl in IH. lia.
    + specialize (IH db' success (S failures)). simpl in IH. lia.
Qed.

Lemma batch_loop_all (outcome : bool) db work_id items drawing_paths
    (success failures : nat) :
  (∀ db eq_no data, fst (save_one db work_id eq_no data drawing_paths) = outcome) →
  fst (batch_loop db work_id items drawing_paths success failures) =
    if outcome then ((success + length items)%nat, failures)
    else (success, (failures + length items)%nat).
Proof.
  intros Hall. revert db success failures.
  induction items as [| [eq_no data] items IH]; intros db success failures; simpl.
  - destruct outcome; f_equal; lia.
  - specialize (Hall db eq_no data).
    destruct (save_one db work_id eq_no data drawing_paths) as [b db'].
    simpl in Hall. subst b. destruct outcome; rewrite IH; f_equal; lia.
Qed.

(** X23. batch_save_equipment accounts for every item: the two counts it
    returns add up to the number of items, whatever raises on the way.
    When create_equipment raises for every item the first count is 0, and
    when no call raises the second is 0. *)
Theorem batch_save_equipment_counts db (work_id : Z)
    (updated_map : list (string * gmap string PyValue))
    (drawing_paths : gmap string PyValue) :
  let counts := fst (batch_save_equipment db work_id updated_map drawing_paths) in
  (fst counts + snd counts = length updated_map)%nat ∧
  ((∀ db eq_no pmt_no description, ∃ e db',
       create_equipment db work_id eq_no pmt_no description = (Raise e, db')) →
     counts = (0%nat, length updated_map)) ∧
  ((∀ db eq_no pmt_no description, ∃ equipment db',
       create_equipment db work_id eq_no pmt_no description = (Return equipment, db')) →
   (∀ db equipment path, ∃ db',
       update_drawing_path db equipment path = (Return tt, db')) →
     counts = (length updated_map, 0%nat)).
Proof.
  unfold DatabaseService.batch_save_equipment. split; [| split].
  - destruct (batch_loop_counts db work_id updated_map drawing_paths 0 0) as [H _].
    simpl in H. exact H.
  - intros Hraise. rewrite (batch_loop_all false); [done |].
    intros db0 eq_no data. unfold DatabaseService.save_one.
    destruct (Hraise db0 eq_no (get data "pmt_no") (get data "description"))
      as (e & db' & ->). done.
  - intros Hcreate Hupdate. rewrite (batch_loop_all true); [done |].
    intros db0 eq_no data. unfold DatabaseService.save_one.
    destruct (Hcreate db0 eq_no (get data "pmt_no") (get data "description"))
      as (equipment & db' & ->).
    destruct (truthy (get drawing_paths eq_no)); [| done].
    destruct (Hupdate db' equipment (get drawing_paths eq_no)) as (db'' & ->). done.
Qed.

End Batch.

Lemma filter_and_length {A} (P Q : A → Prop) `{!∀ x, Decision (P x)}
    `{!∀ x, Decision (Q x)} (l : list A) :
  (length (filter (λ x, P x ∧ Q x) l) ≤ length (filter P l))%nat ∧
  (length (filter (λ x, P x ∧ Q x) l) = length (filter P l) ↔
     ∀ x, x ∈ l → P x → Q x).
Proof.
  induction l as [| a l [IHle IHeq]].
  - split; [done |]. split; [| done]. intros _ x Hx. by apply elem_of_nil in Hx.
  - rewrite !filter_cons. split.
    + repeat case_decide; simpl; try lia; tauto.
    + repeat case_decide; simpl.
      * split.
        -- intros Heq x [-> | Hx]%elem_of_cons; [tauto |]. apply IHeq; [lia | done].
        -- intros Hall. f_equal. apply IHeq. intros x Hx. apply Hall. by right.
      * tauto.
      * split; [lia |]. intros Hall. exfalso.
        assert (Q a) by (apply Hall; [by left | done]). tauto.
      * split.
        -- intros Heq x [-> | Hx]%elem_of_cons; [tauto |]. by apply IHeq.
        -- intros Hall. apply IHeq. intros x Hx. apply Hall. by right.
Qed.

(** X24. count_correction_fields never counts more corrected fields than
    fields to fill, nor more than the eight tracked fields; the two counts
    are equal exactly when every tracked field that is None or "" on the
    component has a value in the existing data that is neither. *)
Theorem count_correction_fields_bounds (orig_comp existing_data : gmap string PyValue) :
  let counts := count_correction_fields orig_comp existing_data in
  (snd counts ≤ fst counts)%nat ∧ (fst counts ≤ 8)%nat ∧
  (snd counts = fst counts ↔
     ∀ field, field ∈ tracked_fields →
       unset (default VNone (orig_comp !! field)) = true →
       unset (default VNone (existing_data !! field)) = false).
Proof.
  unfold count_correction_fields. simpl.
  pose proof (filter_and_length
                (λ field, unset (default VNone (orig_comp !! field)) = true)
                (λ field, unset (default VNone (existing_data !! field)) = false)
                tracked_fields) as [Hle Heq].
  split; [exact Hle |]. split; [| exact Heq].
  etrans; [apply length_filter | done].
Qed.

Lemma batch_save_equipment_counts_witness :
  fst (batch_save_equipment (Db := nat) (Equipment := nat)
         (λ db _ _ _ _, (Raise (ValueError "no session"), db)) sample_update
         0%nat 7 sample_batch ∅)
  = (0%nat, 3%nat).
Proof.
  apply (proj1 (proj2 (batch_save_equipment_counts (Db := nat) (Equipment := nat)
                         (λ db _ _ _ _, (Raise (ValueError "no session"), db))
                         sample_update 0%nat 7 sample_batch ∅))).
  intros db eq_no pmt_no description. by exists (ValueError "no session"), db.
Defined.

Example sample_batch_counts :
  fst (batch_save_equipment sample_create sample_update 0%nat 7 sample_batch
         {[ "V-102" := VStr "drawings/V-102.png" ]})
  = (2%nat, 1%nat).
Proof. reflexivity. Qed.

Example sample_correction_counts :
  count_correction_fields sample_orig sample_existing = (7%nat, 2%nat).
Proof. reflexivity. Qed.

End DatabaseServiceMore.

(** ** services/admin_analytics_service.py: ranges, refusals and payloads *)

Module AnalyticsMore.
Import Analytics.




Lemma max_by_spec {A} (key : A → Z) (first : A) (rest : list A) :
  max_by key first rest ∈ first :: rest ∧
  ∀ x, x ∈ first :: rest → key x ≤ key (max_by key first rest).
Proof.
  unfold max_by. revert first.
  induction rest as [| y rest IH]; intros first; simpl.
  - split; [by left |]. intros x ->%list_elem_of_singleton. lia.
  - destruct (IH (if key first <? key y then y else first)) as [Hin Hmax].
    split.
    + destruct (key first <? key y); [by right |].
      apply elem_of_cons in Hin as [-> | Hin]; [by left | by do 2 right].
    + intros x Hx. destruct (key first <? key y) eqn:Hlt.
      * apply Z.ltb_lt in Hlt.
        apply elem_of_cons in Hx as [-> | Hx]; [| by apply Hmax].
        etrans; [| apply (Hmax y); by left]. lia.
      * apply Z.ltb_ge in Hlt.
        apply elem_of_cons in Hx as [-> | [-> | Hx]%elem_of_cons].
        -- apply Hmax. by left.
        -- etrans; [exact Hlt |]. apply Hmax. by left.
        -- apply Hmax. by right.
Qed.

Lemma min_by_spec {A} (key : A → Z) (first : A) (rest : list A) :
  min_by key first rest ∈ first :: rest ∧
  ∀ x, x ∈ first :: rest → key (min_by key first rest) ≤ key x.
Proof.
  unfold min_by. revert first.
  induction rest as [| y rest IH]; intros first; simpl.
  - split; [by left |]. intros x ->%list_elem_of_singleton. lia.
  - destruct (IH (if key y <? key first then y else first)) as [Hin Hmin].
    split.
    + destruct (key y <? key first); [by right |].
      apply elem_of_cons in Hin as [-> | Hin]; [by left | by do 2 right].
    + intros x Hx. destruct (key y <? key first) eqn:Hlt.
      * apply Z.ltb_lt in Hlt.
        apply elem_of_cons in Hx as [-> | Hx]; [| by apply Hmin].
        etrans; [apply (Hmin y); by left |]. lia.
      * apply Z.ltb_ge in Hlt.
        apply elem_of_cons in Hx as [-> | [-> | Hx]%elem_of_cons].
        -- apply Hmin. by left.
        -- etrans; [apply (Hmin first); by left | exact Hlt].
        -- apply Hmin. by right.
Qed.

Section Service.

Context {Db Timeline : Type}.
Variable users_of : Db -> UserCrud.Session.
Variable get_user_activity_summary :
  Db -> Z -> option datetime -> option datetime -> result (gmap string Metric).
Variable get_team_performance_comparison :
  Db -> option datetime -> option datetime -> result (list TeamRow).
Variable get_work_duration_by_user : Db -> Z -> result Timeline.
Variable get_hourly_productivity :
  Db -> option Z -> option datetime -> option datetime -> result (list HourRow).
Variable get_daily_activity :
  Db -> option Z -> option datetime -> option datetime -> result (list DayRow).
Variable get_work_by_id : Db -> Z -> result (option Work).
Variable isoformat : datetime -> string.
Variable round2 : Q -> Q.

#[local] Abbreviation serve :=
  (serve users_of get_user_activity_summary get_team_performance_comparison
     get_work_duration_by_user get_hourly_productivity get_daily_activity
     get_work_by_id isoformat round2).
#[local] Abbreviation get_user_performance_summary :=
  (get_user_performance_summary (Timeline := Timeline) users_of
     get_user_activity_summary).
#[local] Abbreviation get_productivity_insights :=
  (get_productivity_insights (Timeline := Timeline) get_hourly_productivity
     get_daily_activity round2).

(** X26. A caller whose role is not "Admin" gets the same refusal from each
    of the four service functions, whatever the request, the clock and the
    database: no CRUD function is called before the permission check. *)
Theorem non_admin_refused (now : datetime) (db : Db)
    (current_user : gmap string PyValue) (request : Request) :
  current_user !! "role" ≠ Some (VStr "Admin") →
  serve now db current_user request
  = {[ "success" := FBool false;
       "message" := FStr "Analytics features are only available to administrators";
       "error_type" := FStr "unauthorized" ]}.
Proof.
  intros Hrole.
  destruct request; simpl;
    unfold Analytics.get_user_performance_summary, get_team_comparison,
      get_work_timeline, Analytics.get_productivity_insights,
      check_admin_permission;
    by rewrite bool_decide_eq_true_2.
Qed.

(** X27. In a successful reply of get_productivity_insights, the peak hours
    are absent exactly when there is no hourly row; otherwise the most and
    the least productive hour are rows of the hourly data, and no row has
    more actions than the first or fewer than the second. *)
Theorem peak_hours_bounds (now : datetime) (db : Db)
    (current_user : gmap string PyValue) (user_id : option Z) (period : string)
    (data : ProductivityData) :
  get_productivity_insights now db current_user user_id period !! "data"
    = Some (FProductivity data) →
  (peak_hours data = None ↔ hourly_productivity data = []) ∧
  (∀ peak, peak_hours data = Some peak →
     (∃ row, row ∈ hourly_productivity data ∧
        hour_of_day row = most_productive_hour peak ∧
        hour_action_count row = most_productive_count peak) ∧
     (∃ row, row ∈ hourly_productivity data ∧
        hour_of_day row = least_productive_hour peak ∧
        hour_action_count row = least_productive_count peak) ∧
     (∀ row, row ∈ hourly_productivity data →
        least_productive_count peak ≤ hour_action_count row
          ≤ most_productive_count peak)).
Proof.
  unfold Analytics.get_productivity_insights, check_admin_permission.
  case_bool_decide; simpl; [done |].
  destruct (_calculate_date_range now period) as [range | e]; simpl;
    [| by destruct e].
  destruct (get_hourly_productivity db user_id (fst range) (snd range))
    as [hourly | e]; simpl; [| by destruct e].
  destruct (get_daily_activity db user_id (fst range) (snd range))
    as [daily | e]; simpl; [| by destruct e].
  rewrite lookup_insert_ne by done. rewrite lookup_singleton_eq.
  intros [= <-]. simpl. destruct hourly as [| h hs]; [done |].
  split; [done |]. intros peak [= <-]. simpl.
  destruct (max_by_spec hour_action_count h hs) as [Hmax_in Hmax].
  destruct (min_by_spec hour_action_count h hs) as [Hmin_in Hmin].
  split; [by exists (max_by hour_action_count h hs) |].
  split; [by exists (min_by hour_action_count h hs) |].
  intros row Hrow. split; [by apply Hmin | by apply Hmax].
Qed.

(** X28. For an Admin, when the summary is read and the user exists,
    get_user_performance_summary returns the summary with the user's
    username, full name, email and role written over whatever it held
    under those keys, and every other key as the CRUD function gave it. *)
Theorem performance_summary_enriched (now : datetime) (db : Db)
    (current_user : gmap string PyValue) (user_id : Z) (period : string)
    (range : DateRange) (summary : gmap string Metric) (user : UserCrud.User) :
  current_user !! "role" = Some (VStr "Admin") →
  _calculate_date_range now period = Return range →
  get_user_activity_summary db user_id (fst range) (snd range) = Return summary →
  UserCrud.get_user_by_id (users_of db) user_id = Some user →
  ∃ enriched,
    get_user_performance_summary now db current_user user_id period
      = {[ "success" := FBool true; "data" := FSummary enriched ]} ∧
    enriched !! "username" = Some (MValue (UserCrud.username user)) ∧
    enriched !! "full_name" = Some (MValue (UserCrud.full_name user)) ∧
    enriched !! "email" = Some (MValue (UserCrud.email user)) ∧
    enriched !! "role" = Some (MValue (UserCrud.role user)) ∧
    (∀ key, key ∉ ["username"; "full_name"; "email"; "role"] →
       enriched !! key = summary !! key).
Proof.
  intros Hrole Hrange Hsummary Huser.
  unfold Analytics.get_user_performance_summary, check_admin_permission.
  rewrite bool_decide_eq_false_2 by (by rewrite Hrole; intros []).
  simpl. rewrite Hrange. simpl. rewrite Hsummary. simpl. rewrite Huser. simpl.
  eexists. split; [reflexivity |].
  repeat (split; [by simplify_map_eq |]).
  intros key Hkey. rewrite !not_elem_of_cons in Hkey.
  destruct Hkey as (? & ? & ? & ? & _). by simplify_map_eq.
Qed.

End Service.

Lemma non_admin_refused_witness :
  demo_serve afternoon [] engineer_session (WorkTimeline 3)
  = {[ "success" := FBool false;
       "message" := FStr "Analytics features are only available to administrators";
       "error_type" := FStr "unauthorized" ]}.
Proof.
  apply (non_admin_refused (Db := UserCrud.Session) (Timeline := unit)
           (λ db, db)
           (λ _ _ _ _, Return {[ "total_actions" := MValue (VInt 0) ]})
           (λ _ _ _, Return [])
           (λ _ _, Return tt)
           (λ _ _ _ _, Return [])
           (λ _ _ _ _, Return [])
           (λ _ _, Return None)
           (λ _, "")
           (λ q, q)
           afternoon [] engineer_session (WorkTimeline 3)).
  vm_compute. discriminate.
Defined.

Lemma peak_hours_bounds_witness :
  peak_hours sample_productivity = None ↔ hourly_productivity sample_productivity = [].
Proof.
  apply (peak_hours_bounds (Db := unit) (Timeline := unit)
           (λ _ _ _ _, Return sample_hours) (λ _ _ _ _, Return []) (λ q, q)
           afternoon tt admin_session None "all" sample_productivity).
  reflexivity.
Defined.

Lemma performance_summary_enriched_witness :
  ∃ enriched,
    get_user_performance_summary (Timeline := unit) (λ db, db)
      (λ _ _ _ _, Return sample_summary) afternoon [UserCrud.sample_user]
      admin_session 1 "all"
    = {[ "success" := FBool true; "data" := FSummary enriched ]} ∧
    enriched !! "username" = Some (MValue (VStr "amin")) ∧
    enriched !! "total_actions" = Some (MValue (VInt 12)).
Proof.
  destruct (performance_summary_enriched (Timeline := unit) (λ db, db)
              (λ _ _ _ _, Return sample_summary) afternoon [UserCrud.sample_user]
              admin_session 1 "all" (None, None) sample_summary
              UserCrud.sample_user)
    as (enriched & Hreply & Hname & _ & _ & _ & Hother).
  - reflexivity.
  - reflexivity.
  - reflexivity.
  - reflexivity.
  - exists enriched. split; [exact Hreply |]. split; [exact Hname |].
    rewrite (Hother "total_actions"); [reflexivity |].
    apply (bool_decide_unpack _). vm_compute. exact I.
Defined.

End AnalyticsMore.

(** ** validation_rules.py *)

Module ValidationRulesMore.
Import ValidationRules.

Example username_ok : get_username_validation_error "amin_rahman-01" = None.
Proof. reflexivity. Qed.

Example username_short :
  get_username_validation_error "ab" = Some "Username must be at least 3 characters".
Proof. reflexivity. Qed.

Example username_space :
  get_username_validation_error "amin rahman"
  = Some "Username can only contain letters, numbers, underscore, and hyphen".
Proof. reflexivity. Qed.

Example username_trailing_newline :
  get_username_validation_error ("amin" +:+ newline) = None.
Proof. reflexivity. Qed.

Example password_ok : get_password_validation_error "Secret123" = None.
Proof. reflexivity. Qed.

Example password_no_digit :
  get_password_validation_error "SecretSecret"
  = Some "Password must contain at least one digit".
Proof. reflexivity. Qed.

Lemma name_pattern_iff (s : string) :
  name_pattern s = true ↔
  ∃ body, name_body body ∧ (s = body ∨ s = body +:+ newline).
Proof.
  unfold name_body. induction s as [| c rest IH].
  - split; [discriminate |].
    intros (body & [Hne _] & [<- | Hs]); [done |].
    destruct body; [done | discriminate].
  - change (name_pattern (String c rest))
      with (name_char c &&
            match rest with
            | EmptyString => true
            | String "010"%char EmptyString => true
            | _ => name_pattern rest
            end).
    rewrite andb_true_iff. split.
    + intros [Hc Hrest].
      assert (Hcases : rest = "" ∨ rest = newline ∨ name_pattern rest = true).
      { destruct rest as [| c' rest']; [by left |]. right.
        destruct (decide (String c' rest' = newline)) as [-> | Hne]; [by left |].
        right. revert Hrest. unfold newline in Hne.
        destruct c' as [[] [] [] [] [] [] [] []]; try done.
        destruct rest'; [done | done]. }
      destruct Hcases as [-> | [-> | Hp]].
      * exists (String c ""). split; [| by left].
        split; [done |]. simpl. by constructor.
      * exists (String c ""). split; [| by right].
        split; [done |]. simpl. by constructor.
      * apply IH in Hp as (body & [Hne Hall] & Hs).
        exists (String c body). split.
        -- split; [done |]. simpl. by constructor.
        -- destruct Hs as [-> | ->]; [by left | by right].
    + intros (body & [Hne Hall] & Hs).
      destruct body as [| b body]; [done |]. simpl in Hall.
      apply Forall_cons in Hall as [Hb Hall].
      assert (Hc : c = b) by (destruct Hs as [Hs | Hs]; by injection Hs).
      subst b. split; [done |].
      assert (Hrest : rest = body ∨ rest = body +:+ newline)
        by (destruct Hs as [Hs | Hs]; injection Hs; auto).
      destruct body as [| b' body'].
      * by destruct Hrest as [-> | ->].
      * assert (Hp : name_pattern rest = true).
        { apply IH. exists (String b' body'). split; [| done]. by split. }
        destruct rest as [| c' rest']; [done |].
        destruct c' as [[] [] [] [] [] [] [] []]; try done.
Qed.

(** X29. get_username_validation_error accepts a username exactly when it
    has 3 to 50 characters and consists of one or more letters, digits,
    underscores and hyphens, optionally followed by one final newline:
    the [$] of the pattern lets a trailing newline through. *)
Theorem username_accepted_iff (username : string) :
  get_username_validation_error username = None ↔
  (3 ≤ String.length username ≤ 50)%nat ∧
  ∃ body, name_body body ∧ (username = body ∨ username = body +:+ newline).
Proof.
  rewrite <- name_pattern_iff. unfold get_username_validation_error.
  unfold UsernameRules.MIN_LENGTH, UsernameRules.MAX_LENGTH.
  destruct (String.eqb username "") eqn:Hempty.
  - apply String.eqb_eq in Hempty as ->. simpl. split; [discriminate |].
    intros [? _]. lia.
  - destruct (String.length username <? 3)%nat eqn:Hmin.
    + apply Nat.ltb_lt in Hmin. split; [discriminate |]. intros [? _]. lia.
    + apply Nat.ltb_ge in Hmin.
      destruct (50 <? String.length username)%nat eqn:Hmax.
      * apply Nat.ltb_lt in Hmax. split; [discriminate |]. intros [? _]. lia.
      * apply Nat.ltb_ge in Hmax. destruct (name_pattern username); simpl.
        -- split; [| done]. intros _. split; [lia | done].
        -- split; [discriminate |]. intros [_ ?]. done.
Qed.

(** X30. get_password_validation_error accepts a password exactly when it
    has 8 to 128 characters and holds at least one uppercase letter, one
    lowercase letter and one digit; no special character is asked for. *)
Theorem password_accepted_iff (password : string) :
  get_password_validation_error password = None ↔
  (8 ≤ String.length password ≤ 128)%nat ∧
  (∃ c, c ∈ list_ascii_of_string password ∧ isupper c = true) ∧
  (∃ c, c ∈ list_ascii_of_string password ∧ islower c = true) ∧
  (∃ c, c ∈ list_ascii_of_string password ∧ isdigit c = true).
Proof.
  assert (Hany : ∀ test, any_char test password = true ↔
            ∃ c, c ∈ list_ascii_of_string password ∧ test c = true).
  { intros test. unfold any_char. rewrite existsb_exists.
    by setoid_rewrite list_elem_of_In. }
  rewrite <- !Hany. unfold get_password_validation_error.
  unfold PasswordRules.MIN_LENGTH, PasswordRules.MAX_LENGTH,
    PasswordRules.REQUIRE_UPPERCASE, PasswordRules.REQUIRE_LOWERCASE,
    PasswordRules.REQUIRE_DIGITS.
  destruct (String.eqb password "") eqn:Hempty.
  - apply String.eqb_eq in Hempty as ->. simpl. split; [discriminate |].
    intros [? _]. lia.
  - destruct (String.length password <? 8)%nat eqn:Hmin.
    + apply Nat.ltb_lt in Hmin. split; [discriminate |]. intros [? _]. lia.
    + apply Nat.ltb_ge in Hmin.
      destruct (128 <? String.length password)%nat eqn:Hmax.
      * apply Nat.ltb_lt in Hmax. split; [discriminate |]. intros [? _]. lia.
      * apply Nat.ltb_ge in Hmax.
        destruct (any_char isupper password), (any_char islower password),
          (any_char isdigit password); simpl;
          (split; [try discriminate; intros _; repeat split; lia || done
                  | try done; intros (_ & ? & ? & ?); done]).
Qed.

End ValidationRulesMore.
